(** * Price-action strategy analyzer ([startegy.py]): detection pipeline

    A shallow embedding of the range detector, the trend / break-of-structure
    detector, the impulse detector and the decision engine, together with the
    per-candle metrics of the preprocessor.

    Numbers.  The Python code computes on binary64 floats.  The functions
    below are written once over an arithmetic interface ([Number]) and are
    instantiated twice: with Rocq's primitive binary64 floats ([binary64],
    the arithmetic the program really runs on) and with exact rationals
    extended by an undefined value ([exact]).  A theorem stated for every
    [Number] holds in particular for the binary64 program.

    Exceptions.  Positional access ([.iloc[i]]) is the only operation of the
    detectors that can raise; it is modelled in an error monad so that
    "never raises" is a theorem and not a typing accident.  Float arithmetic
    on numpy scalars and columns never raises (a division by zero yields
    an infinity or NaN). *)

From Stdlib Require Import ZArith QArith Qabs Floats Uint63 List Ascii String Bool Lia Lqa.
From Stdlib Require Import Permutation Sorted.
#[local] Set Warnings "-inexact-float".
Import ListNotations.

Local Close Scope Q_scope.
Local Open Scope Z_scope.

(* ================================================================== *)
(** ** Python / pandas run-time model *)

Module Py.

Inductive exn : Type :=
| IndexError
| ValueError.

Inductive result (A : Type) : Type :=
| Ok (a : A)
| Raise (e : exn).
Arguments Ok {A} a.
Arguments Raise {A} e.

Definition bind {A B} (m : result A) (k : A -> result B) : result B :=
  match m with
  | Ok a => k a
  | Raise e => Raise e
  end.

(** [len(x)] *)
Definition len {A} (l : list A) : Z := Z.of_nat (List.length l).

(** [s.iloc[i]]: positional access, negative positions count from the end,
    [IndexError] outside [-len, len). *)
Definition iloc {A} (l : list A) (i : Z) : result A :=
  let j := if i <? 0 then i + len l else i in
  if (j <? 0) || (len l <=? j) then Raise IndexError
  else match nth_error l (Z.to_nat j) with
       | Some x => Ok x
       | None => Raise IndexError
       end.

(** One bound of a slice, normalised the way Python does it: a negative
    bound counts from the end, and the result is clamped to [0, len]. *)
Definition slice_bound (n i : Z) : Z :=
  if i <? 0 then Z.max 0 (i + n) else Z.min i n.

(** [df.iloc[lo:hi]]; a missing bound is [None].  Never raises. *)
Definition iloc_slice {A} (lo hi : option Z) (l : list A) : list A :=
  let n := len l in
  let a := match lo with Some i => slice_bound n i | None => 0 end in
  let b := match hi with Some i => slice_bound n i | None => n end in
  firstn (Z.to_nat (b - a)) (skipn (Z.to_nat a) l).

(** [range(start, stop)] *)
Definition range_up (start stop : Z) : list Z :=
  map (fun k => start + Z.of_nat k) (seq 0 (Z.to_nat (stop - start))).

(** [range(start, stop, -1)] *)
Definition range_down (start stop : Z) : list Z :=
  map (fun k => start - Z.of_nat k) (seq 0 (Z.to_nat (start - stop))).

(** A [for] loop whose body either falls through to the next iteration
    ([continue], or reaching the end of the body: [Ok None]), returns from
    the enclosing function ([Ok (Some r)]) or raises. *)
Fixpoint for_return {I R} (body : I -> result (option R)) (items : list I)
  : result (option R) :=
  match items with
  | [] => Ok None
  | i :: rest =>
      match body i with
      | Ok None => for_return body rest
      | Ok (Some r) => Ok (Some r)
      | Raise e => Raise e
      end
  end.

End Py.
Import Py.

Declare Scope py_scope.
Delimit Scope py_scope with py.
Notation "x <- m ;; k" := (bind m (fun x => k))
  (at level 61, m at next level, right associativity) : py_scope.
Abbreviation continue := (Ok None) (only parsing).
Abbreviation return_ v := (Ok (Some v)) (only parsing).

(* ================================================================== *)
(** ** The arithmetic the detectors compute with *)

Class Number (F : Type) : Type := {
  of_int : Z -> F;          (* an [int] used where a float is expected *)
  nan : F;                  (* [float('nan')] *)
  add : F -> F -> F;
  sub : F -> F -> F;
  mul : F -> F -> F;
  div : F -> F -> F;        (* numpy true division, never raises *)
  opp : F -> F;
  fabs : F -> F;            (* [abs] *)
  eqb : F -> F -> bool;     (* [==] *)
  ltb : F -> F -> bool;     (* [<]  *)
  leb : F -> F -> bool;     (* [<=] *)
  isna : F -> bool          (* [pd.isna] on a float scalar *)
}.

Declare Scope num_scope.
Delimit Scope num_scope with num.
Notation "x + y" := (add x y) : num_scope.
Notation "x - y" := (sub x y) : num_scope.
Notation "x * y" := (mul x y) : num_scope.
Notation "x / y" := (div x y) : num_scope.
Notation "- x" := (opp x) : num_scope.
Notation "x =? y" := (eqb x y) : num_scope.
Notation "x <? y" := (ltb x y) : num_scope.
Notation "x <=? y" := (leb x y) : num_scope.
Notation "x >? y" := (ltb y x) (only parsing) : num_scope.
Notation "x >=? y" := (leb y x) (only parsing) : num_scope.
(** [$ z]: the integer literal [z] in float arithmetic. *)
Notation "$ z" := (of_int z%Z) (at level 1, format "$ z") : num_scope.

(** The two comparison facts some claims rest on.  They hold for IEEE 754
    comparisons (NaN included) and for exact rationals. *)
Record OrderLaws {F} (N : Number F) : Prop := {
  ltb_leb_trans : forall x y z : F,
      ltb x y = true -> leb y z = true -> ltb x z = true;
  ltb_not_leb : forall x y : F,
      ltb x y = true -> leb y x = false
}.

(* ================================================================== *)
(** ** Data model *)

(** [CandleDataInput]: one raw candle of the request. *)
Module CandleDataInput.
Record t (F : Type) : Type := {
  timestamp : string;
  open : F;
  high : F;
  low : F;
  close : F
}.
Arguments timestamp {F} _.
Arguments open {F} _.
Arguments high {F} _.
Arguments low {F} _.
Arguments close {F} _.
End CandleDataInput.

(** One row of the preprocessed [DataFrame]: the index (the parsed
    timestamp), the four price columns and the three derived columns. *)
Record Row (F : Type) : Type := {
  index : Z;
  open : F;
  high : F;
  low : F;
  close : F;
  body : F;
  range : F;
  body_ratio : F
}.
Arguments index {F} _.
Arguments open {F} _.
Arguments high {F} _.
Arguments low {F} _.
Arguments close {F} _.
Arguments body {F} _.
Arguments range {F} _.
Arguments body_ratio {F} _.

(** A [DataFrame] is the list of its rows in positional order. *)
Definition DataFrame (F : Type) : Type := list (Row F).

(** [df['name']]: one column as a series. *)
Definition col {F} (name : Row F -> F) (df : DataFrame F) : list F := map name df.

(** [RANGE_CONFIG] *)
Record RangeConfig (F : Type) : Type := {
  min_candles : Z;
  min_touches : Z;
  width_min_pct : F;
  width_max_pct : F;
  touch_tolerance_pct : F;
  midrange_pct : F
}.
Arguments min_candles {F} _.
Arguments min_touches {F} _.
Arguments width_min_pct {F} _.
Arguments width_max_pct {F} _.
Arguments touch_tolerance_pct {F} _.
Arguments midrange_pct {F} _.

(** [IMPULSE_CONFIG] *)
Record ImpulseConfig (F : Type) : Type := {
  min_candles_consecutive : Z;
  max_candles_total : Z;
  min_total_pct_change : F;
  min_body_pct : F
}.
Arguments min_candles_consecutive {F} _.
Arguments max_candles_total {F} _.
Arguments min_total_pct_change {F} _.
Arguments min_body_pct {F} _.

(** [TREND_THRESHOLD_PCT] and [TREND_LOOKBACK] *)
Record TrendConfig (F : Type) : Type := {
  TREND_THRESHOLD_PCT : F;
  TREND_LOOKBACK : Z
}.
Arguments TREND_THRESHOLD_PCT {F} _.
Arguments TREND_LOOKBACK {F} _.

(** The dictionary [detect_range] returns. *)
Module Range.
Record t (F : Type) : Type := {
  high : F;
  low : F;
  width_pct : F;
  start_index : Z;
  end_index : Z
}.
Arguments high {F} _.
Arguments low {F} _.
Arguments width_pct {F} _.
Arguments start_index {F} _.
Arguments end_index {F} _.
End Range.

Inductive Trend : Type :=
| uptrend
| downtrend.

(** The fragments [analyze_data] appends to [reason], in order.  Their
    rendering as text (float formatting, joining with a full stop) is not
    modelled. *)
Inductive Reason (F : Type) : Type :=
| RangeDetected (range_low range_high width : F)
| EntryZoneNoPriorImpulse
| TrendBosImpulse (trend : option Trend) (bos current_impulse : bool)
| TrendWithBos.
Arguments RangeDetected {F} _ _ _.
Arguments EntryZoneNoPriorImpulse {F}.
Arguments TrendBosImpulse {F} _ _ _.
Arguments TrendWithBos {F}.

Definition LIMIT_CATCH_ENTRY : string := "Limit Catch Entry".
Definition IN_PRICE_ENTRY : string := "In-Price Entry".
Definition NO_ENTRY : string := "No Entry".

(* ================================================================== *)
(** ** The program *)

Section Strategy.

Context {F : Type} {N : Number F}.
Local Open Scope num_scope.
Local Open Scope py_scope.

(** *** pandas reductions (NaN entries are skipped, as [skipna=True]) *)

Definition dropna (s : list F) : list F := filter (fun x => negb (isna x)) s.

(** [s.max()] *)
Definition series_max (s : list F) : F :=
  match dropna s with
  | [] => nan
  | x :: xs => fold_left (fun m y => if m <? y then y else m) xs x
  end.

(** [s.min()] *)
Definition series_min (s : list F) : F :=
  match dropna s with
  | [] => nan
  | x :: xs => fold_left (fun m y => if y <? m then y else m) xs x
  end.

(** [s.mean()] *)
Definition series_mean (s : list F) : F :=
  match dropna s with
  | [] => nan
  | xs => fold_left add xs $0 / of_int (len xs)
  end.

(** [np.sign] *)
Definition sign (x : F) : F :=
  if $0 <? x then $1
  else if x <? $0 then $(-1)
  else if x =? $0 then $0
  else x.

(** *** Helper functions *)

(** The three derived columns of one candle ([body], [range] and
    [body_ratio]).  [np.where] evaluates the quotient for every row, flat
    candles included; as column arithmetic this yields an infinity or NaN
    that [np.where] then discards, and nothing is raised. *)
Definition candle_metrics (ts : Z) (c : CandleDataInput.t F) : Row F :=
  let body := fabs (CandleDataInput.close c - CandleDataInput.open c) in
  let range := CandleDataInput.high c - CandleDataInput.low c in
  {| index := ts;
     open := CandleDataInput.open c;
     high := CandleDataInput.high c;
     low := CandleDataInput.low c;
     close := CandleDataInput.close c;
     body := body;
     range := range;
     body_ratio := if range =? $0 then $0 else (body / range) * $100 |}.

(** [df.sort_index()]: ascending by timestamp. *)
Fixpoint insert_by_index (r : Z * CandleDataInput.t F)
    (l : list (Z * CandleDataInput.t F)) : list (Z * CandleDataInput.t F) :=
  match l with
  | [] => [r]
  | r' :: rest =>
      if (fst r <=? fst r')%Z then r :: l else r' :: insert_by_index r rest
  end.

Definition sort_index (l : list (Z * CandleDataInput.t F))
  : list (Z * CandleDataInput.t F) :=
  fold_right insert_by_index [] l.

(** [pd.to_datetime] applied to the timestamp column: all the strings
    parse, or the call fails.  The parser itself is pandas' and is taken
    as a parameter. *)
Fixpoint parse_timestamps (to_datetime : string -> option Z)
    (data : list (CandleDataInput.t F))
  : option (list (Z * CandleDataInput.t F)) :=
  match data with
  | [] => Some []
  | c :: rest =>
      match to_datetime (CandleDataInput.timestamp c),
            parse_timestamps to_datetime rest with
      | Some ts, Some keyed => Some ((ts, c) :: keyed)
      | _, _ => None
      end
  end.

(** Every exception inside the function is re-raised as [ValueError]: the
    [KeyError] on the column-less frame built from an empty list, and a
    timestamp that does not parse. *)
Definition preprocess_data_from_json (to_datetime : string -> option Z)
    (data : list (CandleDataInput.t F)) : result (DataFrame F) :=
  match data with
  | [] => Raise ValueError
  | _ =>
      match parse_timestamps to_datetime data with
      | None => Raise ValueError
      | Some keyed =>
          Ok (map (fun r => candle_metrics (fst r) (snd r)) (sort_index keyed))
      end
  end.

Definition check_price_near_extreme
    (price range_low range_high midrange_pct : F) : bool :=
  let total_range := range_high - range_low in
  if total_range <=? $0 then false
  else
    let lower_bound :=
      range_low + total_range * (($100 - midrange_pct) / $2 / $100) in
    let upper_bound :=
      range_high - total_range * (($100 - midrange_pct) / $2 / $100) in
    (price <? lower_bound) || (price >? upper_bound).

(** *** Core analysis functions *)

(** The body of the loop of [detect_range] for one [start_idx]. *)
Definition detect_range_at (cfg : RangeConfig F) (df : DataFrame F)
    (start_idx : Z) : result (option (Range.t F)) :=
  let window :=
    iloc_slice (Some start_idx) (Some (start_idx + min_candles cfg)%Z) df in
  let window_high := series_max (col high window) in
  let window_low := series_min (col low window) in
  if isna window_high || (window_high <=? window_low) then continue
  else
    let high_tol := window_high * (touch_tolerance_pct cfg / $100) in
    let low_tol := window_low * (touch_tolerance_pct cfg / $100) in
    let high_touches :=
      filter (fun r => high r >=? window_high - high_tol) window in
    let low_touches :=
      filter (fun r => low r <=? window_low + low_tol) window in
    if (len high_touches >=? min_touches cfg)%Z
       && (len low_touches >=? min_touches cfg)%Z
    then
      let width := window_high - window_low in
      let midpoint := (window_high + window_low) / $2 in
      if midpoint =? $0 then continue
      else
        let width_pct := (width / midpoint) * $100 in
        if (width_min_pct cfg <=? width_pct)
           && (width_pct <=? width_max_pct cfg)
        then
          last_close <- iloc (col close window) (-1) ;;
          let upper_bound :=
            window_high * ($1 + touch_tolerance_pct cfg / $100) in
          let lower_bound :=
            window_low * ($1 - touch_tolerance_pct cfg / $100) in
          if (lower_bound <=? last_close) && (last_close <=? upper_bound)
          then
            return_ {| Range.high := window_high;
                       Range.low := window_low;
                       Range.width_pct := width_pct;
                       Range.start_index := start_idx;
                       Range.end_index := (start_idx + min_candles cfg - 1)%Z |}
          else continue
        else continue
    else continue.

Definition detect_range (cfg : RangeConfig F) (df : DataFrame F)
  : result (option (Range.t F)) :=
  if (len df <? min_candles cfg)%Z then Ok None
  else
    for_return (detect_range_at cfg df)
               (range_down (len df - min_candles cfg) (-1)).

Definition detect_trend_and_bos (cfg : TrendConfig F) (df : DataFrame F)
  : result (option Trend * bool) :=
  if (len df <? TREND_LOOKBACK cfg + 1)%Z then Ok (None, false)
  else
    let lookback_data :=
      iloc_slice (Some (- TREND_LOOKBACK cfg - 1)%Z) (Some (-1)%Z) df in
    let recent_data := iloc_slice (Some (- TREND_LOOKBACK cfg)%Z) None df in
    recent_close <- iloc (col close recent_data) (-1) ;;
    first_close <- iloc (col close lookback_data) 0 ;;
    let price_change := recent_close - first_close in
    let price_change_pct := (price_change / first_close) * $100 in
    let trend :=
      if price_change_pct >? TREND_THRESHOLD_PCT cfg then Some uptrend
      else if price_change_pct <? - TREND_THRESHOLD_PCT cfg then Some downtrend
      else None in
    match trend with
    | Some uptrend =>
        let prev_high := series_max (col high lookback_data) in
        last_high <- iloc (col high df) (-1) ;;
        Ok (trend, last_high >? prev_high)
    | Some downtrend =>
        let prev_low := series_min (col low lookback_data) in
        last_low <- iloc (col low df) (-1) ;;
        Ok (trend, last_low <? prev_low)
    | None => Ok (trend, false)
    end.

(** The body of the loop of [check_recent_impulse] for one [num_candles]. *)
Definition check_recent_impulse_at (cfg : ImpulseConfig F) (df : DataFrame F)
    (num_candles : Z) : result (option bool) :=
  if (len df <? num_candles)%Z then continue
  else
    let subset := iloc_slice (Some (- num_candles)%Z) None df in
    start_price <- iloc (col open subset) 0 ;;
    end_price <- iloc (col close subset) (-1) ;;
    if start_price =? $0 then continue
    else
      let pct_change :=
        fabs ((end_price - start_price) / start_price) * $100 in
      if pct_change <? min_total_pct_change cfg then continue
      else
        let body_ratios := col body_ratio subset in
        if series_mean body_ratios <? min_body_pct cfg then continue
        else
          let direction := sign (end_price - start_price) in
          let consistent :=
            forallb (fun candle =>
                       (close candle - open candle) * direction >=? $0)
                    subset in
          if consistent then return_ true else continue.

Definition check_recent_impulse (cfg : ImpulseConfig F) (df : DataFrame F)
  : result bool :=
  found <- for_return (check_recent_impulse_at cfg df)
                      (range_up (min_candles_consecutive cfg)
                                (max_candles_total cfg + 1)) ;;
  match found with
  | Some b => Ok b
  | None => Ok false
  end.

(** *** Main analysis logic *)

Definition analyze_data (rcfg : RangeConfig F) (icfg : ImpulseConfig F)
    (tcfg : TrendConfig F) (df : DataFrame F)
  : result (string * list (Reason F)) :=
  detected_range <- detect_range rcfg df ;;
  last_close <- iloc (col close df) (-1) ;;
  (* 1. Limit Catch conditions: [inl] is the early return, [inr] carries
     [reason] on to step 2 *)
  step1 <-
    match detected_range with
    | Some r =>
        let range_low := Range.low r in
        let range_high := Range.high r in
        let in_entry_zone :=
          check_price_near_extreme last_close range_low range_high
                                   (midrange_pct rcfg) in
        let reason :=
          [RangeDetected range_low range_high (Range.width_pct r)] in
        if in_entry_zone then
          let pre_range_data :=
            iloc_slice None (Some (Range.start_index r)) df in
          pre_impulse <- check_recent_impulse icfg pre_range_data ;;
          if negb pre_impulse
          then Ok (inl (LIMIT_CATCH_ENTRY,
                        reason ++ [EntryZoneNoPriorImpulse]))
          else Ok (inr reason)
        else Ok (inr reason)
    | None => Ok (inr [])
    end ;;
  match step1 with
  | inl answer => Ok answer
  | inr reason =>
      (* 2. In-Price Entry conditions *)
      tb <- detect_trend_and_bos tcfg df ;;
      let '(trend, bos) := tb in
      current_impulse <- check_recent_impulse icfg df ;;
      let reason := reason ++ [TrendBosImpulse trend bos current_impulse] in
      if (match trend with Some _ => true | None => false end)
         && bos && negb current_impulse
      then Ok (IN_PRICE_ENTRY, reason ++ [TrendWithBos])
      else
        (* 3. Default case *)
        Ok (NO_ENTRY, reason)
  end.

End Strategy.

(* ================================================================== *)
(** ** The two arithmetics *)

(** *** binary64: what the Python program computes with *)

Definition float_of_Z (z : Z) : float :=
  if (z <? 0)%Z then PrimFloat.opp (PrimFloat.of_uint63 (Uint63.of_Z (- z)))
  else PrimFloat.of_uint63 (Uint63.of_Z z).

#[global] Instance binary64 : Number float := {|
  of_int := float_of_Z;
  nan := PrimFloat.nan;
  add := PrimFloat.add;
  sub := PrimFloat.sub;
  mul := PrimFloat.mul;
  div := PrimFloat.div;
  opp := PrimFloat.opp;
  fabs := PrimFloat.abs;
  eqb := PrimFloat.eqb;
  ltb := PrimFloat.ltb;
  leb := PrimFloat.leb;
  isna := PrimFloat.is_nan
|}.

(** The constants of the module, as written in the source. *)
Definition RANGE_CONFIG : RangeConfig float := {|
  min_candles := 15;
  min_touches := 2;
  width_min_pct := 0.7%float;
  width_max_pct := 3.0%float;
  touch_tolerance_pct := 1.0%float;
  midrange_pct := 30%float
|}.

Definition IMPULSE_CONFIG : ImpulseConfig float := {|
  min_candles_consecutive := 2;
  max_candles_total := 3;
  min_total_pct_change := 1.5%float;
  min_body_pct := 60%float
|}.

Definition TREND_CONFIG : TrendConfig float := {|
  TREND_THRESHOLD_PCT := 0.1%float;
  TREND_LOOKBACK := 10
|}.

(** *** Exact rationals with an undefined value

    [None] plays the part of NaN: it absorbs every operation, compares false
    with everything and is what a division by zero yields. *)

Module Exact.

Definition num : Type := option Q.

Definition lift2 (f : Q -> Q -> Q) (x y : num) : num :=
  match x, y with
  | Some a, Some b => Some (f a b)
  | _, _ => None
  end.

Definition cmp2 (f : Q -> Q -> bool) (x y : num) : bool :=
  match x, y with
  | Some a, Some b => f a b
  | _, _ => false
  end.

Definition qdiv (x y : num) : num :=
  match x, y with
  | Some a, Some b => if Qeq_bool b 0 then None else Some (a / b)%Q
  | _, _ => None
  end.

Definition qltb (a b : Q) : bool := negb (Qle_bool b a).

#[global] Instance exact : Number num := {|
  of_int := fun z => Some (inject_Z z);
  nan := None;
  add := lift2 Qplus;
  sub := lift2 Qminus;
  mul := lift2 Qmult;
  div := qdiv;
  opp := option_map Qopp;
  fabs := option_map Qabs;
  eqb := cmp2 Qeq_bool;
  ltb := cmp2 qltb;
  leb := cmp2 Qle_bool;
  isna := fun x => match x with Some _ => false | None => true end
|}.

Definition RANGE_CONFIG : RangeConfig num := {|
  min_candles := 15;
  min_touches := 2;
  width_min_pct := Some (7 # 10)%Q;
  width_max_pct := Some (3 # 1)%Q;
  touch_tolerance_pct := Some (1 # 1)%Q;
  midrange_pct := Some (30 # 1)%Q
|}.

Definition IMPULSE_CONFIG : ImpulseConfig num := {|
  min_candles_consecutive := 2;
  max_candles_total := 3;
  min_total_pct_change := Some (3 # 2)%Q;
  min_body_pct := Some (60 # 1)%Q
|}.

Definition TREND_CONFIG : TrendConfig num := {|
  TREND_THRESHOLD_PCT := Some (1 # 10)%Q;
  TREND_LOOKBACK := 10
|}.

End Exact.

(* ================================================================== *)
(** ** The range detector as the specification words it

    The five conditions of a qualifying window, stated on the window alone.
    They are compared with the loop of [detect_range] below. *)

Section RangeSpec.

Context {F : Type} {N : Number F}.
Local Open Scope num_scope.

(** The candidate window of length [min_candles] starting at [start_idx]. *)
Definition window_at (cfg : RangeConfig F) (df : DataFrame F) (start_idx : Z)
  : DataFrame F :=
  iloc_slice (Some start_idx) (Some (start_idx + min_candles cfg)%Z) df.

Definition window_high (w : DataFrame F) : F := series_max (col high w).
Definition window_low (w : DataFrame F) : F := series_min (col low w).

Definition window_midpoint (w : DataFrame F) : F :=
  (window_high w + window_low w) / $2.

(** [width_pct = (high - low) / midpoint * 100] *)
Definition window_width_pct (w : DataFrame F) : F :=
  ((window_high w - window_low w) / window_midpoint w) * $100.

(** 1. reject if [window_high <= window_low] or undefined (NaN) *)
Definition extremes_ok (w : DataFrame F) : bool :=
  negb (isna (window_high w)) && negb (window_high w <=? window_low w).

(** 2, 3. at least [min_touches] candles within the tolerance of each
    extreme *)
Definition resistance_touches (cfg : RangeConfig F) (w : DataFrame F) : Z :=
  let tol_high := window_high w * (touch_tolerance_pct cfg / $100) in
  len (filter (fun r => high r >=? window_high w - tol_high) w).

Definition support_touches (cfg : RangeConfig F) (w : DataFrame F) : Z :=
  let tol_low := window_low w * (touch_tolerance_pct cfg / $100) in
  len (filter (fun r => low r <=? window_low w + tol_low) w).

Definition touches_ok (cfg : RangeConfig F) (w : DataFrame F) : bool :=
  (min_touches cfg <=? resistance_touches cfg w)%Z
  && (min_touches cfg <=? support_touches cfg w)%Z.

(** 4. [width_min_pct <= width_pct <= width_max_pct] *)
Definition width_in_bounds (cfg : RangeConfig F) (w : DataFrame F) : bool :=
  (width_min_pct cfg <=? window_width_pct w)
  && (window_width_pct w <=? width_max_pct cfg).

(** The width is a percentage of the midpoint, and the code computes it only
    for a midpoint other than zero.  With the module's constants the guard
    rejects nothing that the bounds would accept: lemmas
    [binary64_width_guard_redundant] and [exact_width_guard_redundant]. *)
Definition width_ok (cfg : RangeConfig F) (w : DataFrame F) : bool :=
  negb (window_midpoint w =? $0) && width_in_bounds cfg w.

(** 5. the window's last close lies within
    [[window_low*(1-tol%), window_high*(1+tol%)]] *)
Definition last_close_ok (cfg : RangeConfig F) (w : DataFrame F) : bool :=
  let c := last (col close w) nan in
  (window_low w * ($1 - touch_tolerance_pct cfg / $100) <=? c)
  && (c <=? window_high w * ($1 + touch_tolerance_pct cfg / $100)).

Definition qualifies (cfg : RangeConfig F) (w : DataFrame F) : bool :=
  extremes_ok w && touches_ok cfg w && width_ok cfg w && last_close_ok cfg w.

(** The result reported for the window starting at [start_idx]. *)
Definition range_of (cfg : RangeConfig F) (df : DataFrame F) (start_idx : Z)
  : Range.t F :=
  let w := window_at cfg df start_idx in
  {| Range.high := window_high w;
     Range.low := window_low w;
     Range.width_pct := window_width_pct w;
     Range.start_index := start_idx;
     Range.end_index := (start_idx + min_candles cfg - 1)%Z |}.

End RangeSpec.

(** "[x] raised to [y]": a threshold left as it is or made larger. *)
Definition raised {F : Type} {N : Number F} (x y : F) : Prop :=
  x = y \/ (x <=? y)%num = true.

(* ================================================================== *)
(** ** A rank for IEEE 754 comparison

    [SFcompare], the specification of the primitive comparisons, orders the
    floats other than NaN like the lexicographic order of these triples
    (class, exponent, mantissa; mirrored for negative numbers). *)

Definition SFkey (x : spec_float) : option (Z * Z * Z) :=
  match x with
  | S754_nan => None
  | S754_infinity true => Some (-2, 0, 0)
  | S754_infinity false => Some (2, 0, 0)
  | S754_zero _ => Some (0, 0, 0)
  | S754_finite true m e => Some (-1, - e, - Zpos m)
  | S754_finite false m e => Some (1, e, Zpos m)
  end.

Definition key_lt (k1 k2 : Z * Z * Z) : Prop :=
  let '(a1, b1, c1) := k1 in
  let '(a2, b2, c2) := k2 in
  a1 < a2 \/ (a1 = a2 /\ (b1 < b2 \/ (b1 = b2 /\ c1 < c2))).

(* ================================================================== *)
(** ** The endpoint *)

(** [AnalysisResult] *)
Module AnalysisResult.
Record t (F : Type) : Type := {
  strategy_suggestion : string;
  reason : list (Reason F)
}.
Arguments strategy_suggestion {F} _.
Arguments reason {F} _.
End AnalysisResult.

(** What a call of the endpoint produces: the response model, or an
    [HTTPException] with its status code (its [detail] text is not
    modelled). *)
Inductive Response (F : Type) : Type :=
| Returned (result : AnalysisResult.t F)
| HTTPException (status_code : Z).
Arguments Returned {F} _.
Arguments HTTPException {F} _.

Section Endpoint.

Context {F : Type} {N : Number F}.
Local Open Scope py_scope.

(** [AnalysisRequest]: the constraint [min_items] on [ohlc_data], checked
    by the framework before the handler runs. *)
Definition AnalysisRequest_valid (rcfg : RangeConfig F)
    (ohlc_data : list (CandleDataInput.t F)) : bool :=
  (min_candles rcfg <=? len ohlc_data)%Z.

(** The handler: [ValueError] becomes status 400, any other exception
    status 500. *)
Definition analyze_ohlc (to_datetime : string -> option Z)
    (rcfg : RangeConfig F) (icfg : ImpulseConfig F) (tcfg : TrendConfig F)
    (ohlc_data : list (CandleDataInput.t F)) : Response F :=
  match (df <- preprocess_data_from_json to_datetime ohlc_data ;;
         analyze_data rcfg icfg tcfg df) with
  | Ok (strategy, reason) =>
      Returned {| AnalysisResult.strategy_suggestion := strategy;
                  AnalysisResult.reason := reason |}
  | Raise ValueError => HTTPException 400
  | Raise _ => HTTPException 500
  end.

End Endpoint.

(* ================================================================== *)
(** ** Comparison laws in the presence of NaN

    Further facts about [<] and [<=] that hold for IEEE 754 comparisons and
    for exact rationals: apart from NaN, which compares false with
    everything, [<=] is a total preorder and [<] its strict part. *)

Record NaNOrderLaws {F : Type} (N : Number F) : Prop := {
  nan_isna : isna (nan : F) = true;
  leb_refl : forall x : F, isna x = false -> leb x x = true;
  leb_notna : forall x y : F, leb x y = true -> isna x = false /\ isna y = false;
  ltb_leb : forall x y : F, ltb x y = true -> leb x y = true;
  leb_total : forall x y : F,
      isna x = false -> isna y = false -> ltb x y = false -> leb y x = true;
  leb_trans : forall x y z : F,
      leb x y = true -> leb y z = true -> leb x z = true;
  leb_ltb_trans : forall x y z : F,
      leb x y = true -> ltb y z = true -> ltb x z = true
}.

(** The timestamp key of a candle, 0 when the string does not parse. *)
Definition timestamp_key {F : Type} (to_datetime : string -> option Z)
    (c : CandleDataInput.t F) : Z :=
  match to_datetime (CandleDataInput.timestamp c) with
  | Some ts => ts
  | None => 0
  end.

(** The order [sort_index] sorts by. *)
Definition key_le {F : Type} (a b : Z * CandleDataInput.t F) : Prop :=
  fst a <= fst b.

(** Shift the two positions of a range by [k]. *)
Definition shift_range {F : Type} (k : Z) (r : Range.t F) : Range.t F :=
  {| Range.high := Range.high r;
     Range.low := Range.low r;
     Range.width_pct := Range.width_pct r;
     Range.start_index := Range.start_index r + k;
     Range.end_index := Range.end_index r + k |}.

(* ================================================================== *)
(** ** The two setups of the decision engine, as conditions on the
    detectors' results *)

Section Setups.

Context {F : Type} {N : Number F}.

(** What step 1 has appended to [reason] when it is left. *)
Definition step1_reason (found : option (Range.t F)) : list (Reason F) :=
  match found with
  | Some r => [RangeDetected (Range.low r) (Range.high r) (Range.width_pct r)]
  | None => []
  end.

(** Step 1 answers: the latest close is in the entry zone of the range and
    the candles before the range show no impulse. *)
Definition limit_catch_setup (rcfg : RangeConfig F) (icfg : ImpulseConfig F)
    (df : DataFrame F) (r : Range.t F) (last_close : F) : Prop :=
  check_price_near_extreme last_close (Range.low r) (Range.high r)
                           (midrange_pct rcfg) = true
  /\ check_recent_impulse icfg (iloc_slice None (Some (Range.start_index r)) df)
     = Ok false.

(** Step 1 falls through to step 2: no range, or the latest close outside
    the entry zone, or an impulse before the range. *)
Definition limit_catch_missed (rcfg : RangeConfig F) (icfg : ImpulseConfig F)
    (df : DataFrame F) (found : option (Range.t F)) (last_close : F) : Prop :=
  match found with
  | None => True
  | Some r =>
      check_price_near_extreme last_close (Range.low r) (Range.high r)
                               (midrange_pct rcfg) = false
      \/ (check_price_near_extreme last_close (Range.low r) (Range.high r)
                                   (midrange_pct rcfg) = true
          /\ check_recent_impulse icfg
               (iloc_slice None (Some (Range.start_index r)) df) = Ok true)
  end.

End Setups.

(** NaN is absorbing: a sum, difference, product or quotient that is a
    number has operands that are numbers.  Holds for IEEE 754 arithmetic
    and for the exact rationals with an undefined value. *)
Record NaNArithLaws {F : Type} (N : Number F) : Prop := {
  zero_notna : isna (of_int 0 : F) = false;
  add_notna : forall x y : F,
      isna (add x y) = false -> isna x = false /\ isna y = false;
  sub_notna : forall x y : F,
      isna (sub x y) = false -> isna x = false /\ isna y = false;
  mul_notna : forall x y : F,
      isna (mul x y) = false -> isna x = false /\ isna y = false;
  div_notna : forall x y : F,
      isna (div x y) = false -> isna x = false /\ isna y = false
}.

(* ================================================================== *)
(** ** The trend classification, as a function of the two closes *)

Section TrendSpec.

Context {F : Type} {N : Number F}.
Local Open Scope num_scope.

(** [price_change_pct] from the reference close (the first close of the
    prior window) to the latest close. *)
Definition price_change_pct (latest_close reference_close : F) : F :=
  ((latest_close - reference_close) / reference_close) * $100.

Definition classify_trend (cfg : TrendConfig F) (pct : F) : option Trend :=
  if pct >? TREND_THRESHOLD_PCT cfg then Some uptrend
  else if pct <? - TREND_THRESHOLD_PCT cfg then Some downtrend
  else None.

End TrendSpec.

(** The candle invariant of the data model: the high is at least the open
    and the close, the low at most. *)
Definition within_high_low {F : Type} {N : Number F}
    (c : CandleDataInput.t F) : bool :=
  (CandleDataInput.low c <=? CandleDataInput.open c)%num
  && (CandleDataInput.open c <=? CandleDataInput.high c)%num
  && (CandleDataInput.low c <=? CandleDataInput.close c)%num
  && (CandleDataInput.close c <=? CandleDataInput.high c)%num.

(* ================================================================== *)
(** ** Sample series *)

Module Sample.

(** A preprocessed row from its four prices. *)
Definition row {F : Type} {N : Number F} (ts : Z) (o h l c : F) : Row F :=
  candle_metrics ts
    {| CandleDataInput.timestamp := EmptyString;
       CandleDataInput.open := o;
       CandleDataInput.high := h;
       CandleDataInput.low := l;
       CandleDataInput.close := c |}.

Local Open Scope float_scope.

Definition quiet (ts : Z) : Row float := row ts 100 100.5 99.5 100.

(** Fifteen candles between 99 and 101 that end on a push to the top of
    the range: a live range with the last close in its upper band, an
    uptrend over the last eleven candles, and a last high above the ten
    before it. *)
Definition range_with_breakout : DataFrame float :=
  [ row 2 100 100.5 99 100; quiet 3; quiet 4; quiet 5; quiet 6; quiet 7;
    quiet 8; quiet 9; quiet 10; quiet 11; quiet 12; quiet 13; quiet 14;
    row 15 100 100.5 99.5 100.4; row 16 100.4 101 100 100.9 ].

(** The same, preceded by two quiet candles. *)
Definition both_setups : DataFrame float :=
  quiet 0 :: quiet 1 :: range_with_breakout.

(** Seventeen candles: the windows starting at 0 and at 1 are ranges, the
    most recent window (starting at 2) is broken by the last candle. *)
Definition two_ranges : DataFrame float :=
  [ quiet 0; quiet 1; row 2 100 101 99 100; row 3 100 101 99 100;
    quiet 4; quiet 5; quiet 6; quiet 7; quiet 8; quiet 9; quiet 10;
    quiet 11; quiet 12; quiet 13; quiet 14; quiet 15;
    row 16 100 110 100 110 ].

(** Two full-bodied rising candles after a quiet one. *)
Definition thrust : DataFrame float :=
  [ quiet 0; row 1 100 102 100 102; row 2 102 104 102 104 ].

Definition lax_thresholds : ImpulseConfig float := {|
  min_candles_consecutive := 2;
  max_candles_total := 3;
  min_total_pct_change := 1.0;
  min_body_pct := 50
|}.

(** Fifteen candles without a usable high, opening at zero. *)
Definition degenerate : DataFrame float :=
  map (fun ts => row ts 0 nan 1 1)
      [0; 1; 2; 3; 4; 5; 6; 7; 8; 9; 10; 11; 12; 13; 14]%Z.

(** A request with a flat candle. *)
Definition request : list (CandleDataInput.t float) :=
  [ {| CandleDataInput.timestamp := "2024-01-02";
       CandleDataInput.open := 100;
       CandleDataInput.high := 101;
       CandleDataInput.low := 99;
       CandleDataInput.close := 100.5 |};
    {| CandleDataInput.timestamp := "2024-01-01";
       CandleDataInput.open := 100;
       CandleDataInput.high := 100;
       CandleDataInput.low := 100;
       CandleDataInput.close := 100 |} ].

(** A stand-in for [pd.to_datetime] on the two dates above: the day of the
    month, taken from the last character. *)
Definition day_of_month (s : string) : option Z :=
  match String.get (String.length s - 1) s with
  | Some "1"%char => Some 1%Z
  | Some "2"%char => Some 2%Z
  | _ => None
  end.

Local Close Scope float_scope.

(** The range of [range_with_breakout] in exact arithmetic. *)
Definition exact_quiet (ts : Z) : Row Exact.num :=
  row ts (Some 100%Q) (Some (201 # 2)%Q) (Some (199 # 2)%Q) (Some 100%Q).

Definition exact_range : DataFrame Exact.num :=
  [ row 0 (Some 100%Q) (Some (201 # 2)%Q) (Some 99%Q) (Some 100%Q);
    exact_quiet 1; exact_quiet 2; exact_quiet 3; exact_quiet 4;
    exact_quiet 5; exact_quiet 6; exact_quiet 7; exact_quiet 8;
    exact_quiet 9; exact_quiet 10; exact_quiet 11; exact_quiet 12;
    row 13 (Some 100%Q) (Some (201 # 2)%Q) (Some (199 # 2)%Q) (Some (502 # 5)%Q);
    row 14 (Some (502 # 5)%Q) (Some 101%Q) (Some 100%Q) (Some (1009 # 10)%Q) ].

End Sample.

(* ================================================================== *)
(** ** Further sample series *)

Module Scenario.

Local Open Scope float_scope.

(** Two older candles. *)
Definition older : DataFrame float := [Sample.quiet 0; Sample.quiet 1].

(** Eleven candles whose first close is zero and whose last close is 5. *)
Definition from_zero : DataFrame float :=
  Sample.row 0 1 1 0 0
  :: map (fun ts => Sample.row ts 1 2 1 2) [1; 2; 3; 4; 5; 6; 7; 8; 9]%Z
  ++ [Sample.row 10 2 5 2 5].

Local Close Scope float_scope.

(** Two full-bodied rising candles after a quiet one, in exact
    arithmetic. *)
Definition exact_thrust : DataFrame Exact.num :=
  [ Sample.exact_quiet 0;
    Sample.row 1 (Some 100%Q) (Some 102%Q) (Some 100%Q) (Some 102%Q);
    Sample.row 2 (Some 102%Q) (Some 104%Q) (Some 102%Q) (Some 104%Q) ].

(** A request of two well-formed candles, one of them flat, in exact
    arithmetic. *)
Definition exact_request : list (CandleDataInput.t Exact.num) :=
  [ {| CandleDataInput.timestamp := "2024-01-02";
       CandleDataInput.open := Some 100%Q;
       CandleDataInput.high := Some 101%Q;
       CandleDataInput.low := Some 99%Q;
       CandleDataInput.close := Some (201 # 2)%Q |};
    {| CandleDataInput.timestamp := "2024-01-01";
       CandleDataInput.open := Some 100%Q;
       CandleDataInput.high := Some 100%Q;
       CandleDataInput.low := Some 100%Q;
       CandleDataInput.close := Some 100%Q |} ].

End Scenario.

(* ================================================================== *)
(** ** Facts about the run-time model *)

Section PyFacts.

Context {A : Type}.

Lemma len_nonneg (l : list A) : 0 <= len l.
Proof. unfold len. lia. Qed.

Lemma len_nil : len (@nil A) = 0.
Proof. reflexivity. Qed.

Lemma len_map {B} (f : A -> B) (l : list A) : len (map f l) = len l.
Proof. unfold len. now rewrite length_map. Qed.

(** Inside [-len, len) positional access succeeds. *)
Lemma iloc_in_bounds (l : list A) (i : Z) :
  - len l <= i < len l -> exists x, iloc l i = Ok x.
Proof.
  intros Hi. unfold iloc.
  set (j := if i <? 0 then i + len l else i).
  assert (Hj : 0 <= j < len l).
  { subst j. destruct (Z.ltb_spec i 0); lia. }
  replace ((j <? 0) || (len l <=? j)) with false.
  2:{ symmetry. apply orb_false_iff. split.
      - apply Z.ltb_ge. lia.
      - apply Z.leb_gt. lia. }
  destruct (nth_error l (Z.to_nat j)) as [x|] eqn:E.
  - now exists x.
  - apply nth_error_None in E. unfold len in Hj. lia.
Qed.

Lemma iloc_nil (i : Z) : iloc (@nil A) i = Raise IndexError.
Proof.
  unfold iloc. destruct (_ || _); [reflexivity|].
  now destruct (Z.to_nat _).
Qed.

Lemma slice_bound_range (n i : Z) : 0 <= n -> 0 <= slice_bound n i <= n.
Proof. intros H. unfold slice_bound. destruct (Z.ltb_spec i 0); lia. Qed.

(** The length of a slice whose normalised bounds are in order. *)
Lemma len_iloc_slice (lo hi : Z) (l : list A) :
  slice_bound (len l) lo <= slice_bound (len l) hi ->
  len (iloc_slice (Some lo) (Some hi) l)
  = slice_bound (len l) hi - slice_bound (len l) lo.
Proof.
  intros Hab. unfold iloc_slice.
  pose proof (slice_bound_range (len l) lo (len_nonneg l)) as Ha.
  pose proof (slice_bound_range (len l) hi (len_nonneg l)) as Hb.
  revert Hab Ha Hb.
  generalize (slice_bound (len l) lo) (slice_bound (len l) hi).
  intros a b Hab Ha Hb.
  unfold len in *. rewrite length_firstn, length_skipn. lia.
Qed.

Lemma len_iloc_slice_from (lo : Z) (l : list A) :
  len (iloc_slice (Some lo) None l) = len l - slice_bound (len l) lo.
Proof.
  unfold iloc_slice.
  pose proof (slice_bound_range (len l) lo (len_nonneg l)) as Ha.
  revert Ha. generalize (slice_bound (len l) lo). intros a Ha.
  unfold len in *. rewrite length_firstn, length_skipn. lia.
Qed.

Lemma iloc_slice_to_0 (l : list A) : iloc_slice None (Some 0) l = [].
Proof. unfold iloc_slice, slice_bound. simpl. now rewrite Z.min_l by apply len_nonneg. Qed.

Lemma nth_error_last (l : list A) (d : A) :
  l <> [] -> nth_error l (List.length l - 1) = Some (last l d).
Proof.
  induction l as [|x l IH]; [congruence|]. intros _.
  destruct l as [|y l]; [reflexivity|].
  change (last (x :: y :: l) d) with (last (y :: l) d).
  rewrite <- IH by discriminate.
  simpl. now rewrite Nat.sub_0_r.
Qed.

(** Position [-1] of a non-empty series is its last entry. *)
Lemma iloc_last (l : list A) (d : A) :
  l <> [] -> iloc l (-1) = Ok (last l d).
Proof.
  intros Hne. unfold iloc.
  assert (Hlen : 0 < len l).
  { unfold len. destruct l; [congruence|simpl; lia]. }
  change (-1 <? 0) with true. cbv iota.
  replace ((-1 + len l <? 0) || (len l <=? -1 + len l)) with false.
  2:{ symmetry. apply orb_false_iff. split; [apply Z.ltb_ge|apply Z.leb_gt]; lia. }
  replace (Z.to_nat (-1 + len l)) with (List.length l - 1)%nat by (unfold len; lia).
  now rewrite (nth_error_last l d Hne).
Qed.

Lemma nonempty_of_len (l : list A) : 0 < len l -> l <> [].
Proof. intros H ->. rewrite len_nil in H. lia. Qed.

End PyFacts.

Lemma range_up_ge (start stop i : Z) : In i (range_up start stop) -> start <= i < stop.
Proof.
  unfold range_up. rewrite in_map_iff. intros (k & <- & Hk).
  apply in_seq in Hk. lia.
Qed.

Lemma range_down_bounds (start stop i : Z) :
  In i (range_down start stop) -> stop < i <= start.
Proof.
  unfold range_down. rewrite in_map_iff. intros (k & <- & Hk).
  apply in_seq in Hk. lia.
Qed.

Lemma range_down_nil (start stop : Z) : start <= stop -> range_down start stop = [].
Proof.
  intros H. unfold range_down. now replace (Z.to_nat (start - stop)) with 0%nat by lia.
Qed.

Lemma range_down_cons (start stop : Z) :
  stop < start -> range_down start stop = start :: range_down (start - 1) stop.
Proof.
  intros H. unfold range_down.
  replace (Z.to_nat (start - stop)) with (S (Z.to_nat (start - 1 - stop))) by lia.
  rewrite <- cons_seq, <- seq_shift, map_cons, map_map. f_equal.
  - simpl. lia.
  - apply map_ext. intros k. lia.
Qed.

(** The descending range splits at any of its elements. *)
Lemma range_down_split (start s stop : Z) :
  stop < s <= start ->
  range_down start stop = range_down start s ++ s :: range_down (s - 1) stop.
Proof.
  intros H.
  assert (G : forall k : nat, forall start, start = s + Z.of_nat k ->
            range_down start stop = range_down start s ++ s :: range_down (s - 1) stop).
  { induction k as [|k IH]; intros st ->.
    - rewrite Z.add_0_r. rewrite (range_down_nil s s) by lia.
      simpl. apply range_down_cons. lia.
    - rewrite (range_down_cons (s + Z.of_nat (S k)) stop) by lia.
      rewrite (range_down_cons (s + Z.of_nat (S k)) s) by lia.
      simpl. f_equal. apply IH. lia. }
  apply (G (Z.to_nat (start - s))). lia.
Qed.

Section ForReturn.

Context {I R : Type} (body : I -> result (option R)).

(** A loop all of whose iterations fall through returns nothing. *)
Lemma for_return_all_continue (items : list I) :
  (forall i, In i items -> body i = Ok None) ->
  for_return body items = Ok None.
Proof.
  induction items as [|i rest IH]; intros H; simpl; [reflexivity|].
  rewrite (H i) by now left. apply IH. intros j Hj. apply H. now right.
Qed.

(** The first iteration that returns decides the loop. *)
Lemma for_return_first (before after : list I) (i : I) (r : R) :
  (forall j, In j before -> body j = Ok None) ->
  body i = Ok (Some r) ->
  for_return body (before ++ i :: after) = Ok (Some r).
Proof.
  induction before as [|j rest IH]; intros Hb Hi; simpl.
  - now rewrite Hi.
  - rewrite (Hb j) by now left. apply IH; [|assumption].
    intros k Hk. apply Hb. now right.
Qed.

(** A value returned by the loop was returned by one of its iterations. *)
Lemma for_return_some (items : list I) (r : R) :
  for_return body items = Ok (Some r) ->
  exists i, In i items /\ body i = Ok (Some r).
Proof.
  induction items as [|i rest IH]; simpl; [discriminate|].
  destruct (body i) as [[r'|]|e] eqn:E; intros H.
  - exists i. split; [now left|]. now rewrite E, H.
  - destruct (IH H) as (j & Hj & Hr). exists j. split; [now right|assumption].
  - discriminate.
Qed.

(** A loop none of whose iterations raises does not raise. *)
Lemma for_return_total (items : list I) :
  (forall i, In i items -> exists v, body i = Ok v) ->
  exists v, for_return body items = Ok v.
Proof.
  induction items as [|i rest IH]; intros H; simpl.
  - now exists None.
  - destruct (H i) as [[r|] ->]; [now left| |].
    + now exists (Some r).
    + apply IH. intros j Hj. apply H. now right.
Qed.

End ForReturn.

(* ================================================================== *)
(** ** Both arithmetics satisfy the comparison laws *)

Lemma SFcompare_key (x y : spec_float) :
  match SFcompare x y, SFkey x, SFkey y with
  | Some Lt, Some kx, Some ky => key_lt kx ky
  | Some Eq, Some kx, Some ky => kx = ky
  | Some Gt, Some kx, Some ky => key_lt ky kx
  | None, None, _ => True
  | None, _, None => True
  | _, _, _ => False
  end.
Proof.
  destruct x as [sx|sx| |sx mx ex], y as [sy|sy| |sy my ey];
    try destruct sx; try destruct sy; simpl; auto; try lia.
  - change (Pos.compare_cont Eq mx my) with (mx ?= my)%positive.
    destruct (Z.compare_spec ex ey); simpl; try lia.
    destruct (Pos.compare_spec mx my); simpl; try lia. congruence.
  - change (Pos.compare_cont Eq mx my) with (mx ?= my)%positive.
    destruct (Z.compare_spec ex ey); simpl; try lia.
    destruct (Pos.compare_spec mx my); simpl; try lia. congruence.
Qed.

Lemma SFltb_key (x y : spec_float) :
  SFltb x y = true ->
  exists kx ky, SFkey x = Some kx /\ SFkey y = Some ky /\ key_lt kx ky.
Proof.
  unfold SFltb. pose proof (SFcompare_key x y) as H.
  destruct (SFcompare x y) as [[]|]; try discriminate. intros _.
  destruct (SFkey x) as [kx|], (SFkey y) as [ky|]; try contradiction.
  eauto.
Qed.

Lemma SFleb_key (x y : spec_float) :
  SFleb x y = true ->
  exists kx ky, SFkey x = Some kx /\ SFkey y = Some ky /\ (key_lt kx ky \/ kx = ky).
Proof.
  unfold SFleb. pose proof (SFcompare_key x y) as H.
  destruct (SFcompare x y) as [[]|]; try discriminate; intros _;
    destruct (SFkey x) as [kx|], (SFkey y) as [ky|]; try contradiction; eauto 6.
Qed.

Lemma key_lt_SFltb (x y : spec_float) (kx ky : Z * Z * Z) :
  SFkey x = Some kx -> SFkey y = Some ky -> key_lt kx ky -> SFltb x y = true.
Proof.
  intros Hx Hy Hlt. unfold SFltb. pose proof (SFcompare_key x y) as H.
  rewrite Hx, Hy in H.
  destruct kx as [[a1 b1] c1], ky as [[a2 b2] c2].
  destruct (SFcompare x y) as [[]|]; try reflexivity; exfalso.
  - injection H as -> -> ->. unfold key_lt in Hlt. lia.
  - unfold key_lt in *. lia.
  - exact H.
Qed.

Lemma key_lt_not_SFleb (x y : spec_float) (kx ky : Z * Z * Z) :
  SFkey x = Some kx -> SFkey y = Some ky -> key_lt kx ky -> SFleb y x = false.
Proof.
  intros Hx Hy Hlt. unfold SFleb. pose proof (SFcompare_key y x) as H.
  rewrite Hx, Hy in H.
  destruct kx as [[a1 b1] c1], ky as [[a2 b2] c2].
  destruct (SFcompare y x) as [[]|]; try reflexivity; exfalso.
  - injection H as -> -> ->. unfold key_lt in Hlt. lia.
  - unfold key_lt in *. lia.
Qed.

Lemma binary64_laws : OrderLaws binary64.
Proof.
  split; simpl.
  - intros x y z. rewrite !FloatAxioms.ltb_spec, FloatAxioms.leb_spec. intros Hxy Hyz.
    apply SFltb_key in Hxy as (kx & ky & Hx & Hy & Hlt).
    apply SFleb_key in Hyz as (ky' & kz & Hy' & Hz & Hle).
    rewrite Hy in Hy'. injection Hy' as <-.
    apply (key_lt_SFltb _ _ kx kz Hx Hz).
    destruct kx as [[a1 b1] c1], ky as [[a2 b2] c2], kz as [[a3 b3] c3].
    destruct Hle as [Hle|[= -> -> ->]]; unfold key_lt in *; lia.
  - intros x y. rewrite FloatAxioms.ltb_spec, FloatAxioms.leb_spec. intros Hxy.
    apply SFltb_key in Hxy as (kx & ky & Hx & Hy & Hlt).
    now apply (key_lt_not_SFleb _ _ kx ky).
Qed.

Lemma exact_laws : OrderLaws Exact.exact.
Proof.
  split; simpl.
  - intros [x|] [y|] [z|]; simpl; try discriminate.
    unfold Exact.qltb. rewrite !negb_true_iff, Qle_bool_iff.
    intros Hxy Hyz.
    destruct (Qle_bool z x) eqn:E; [|reflexivity].
    apply Qle_bool_iff in E.
    destruct (Qle_bool y x) eqn:E'; [discriminate|].
    assert (y <= x)%Q by (eapply Qle_trans; eassumption).
    apply Qle_bool_iff in H. congruence.
  - intros [x|] [y|]; simpl; try discriminate.
    unfold Exact.qltb. now rewrite negb_true_iff.
Qed.

(* ================================================================== *)
(** ** Preprocessor *)

Section PreprocessFacts.

Context {F : Type} {N : Number F}.

Lemma In_insert_by_index (r x : Z * CandleDataInput.t F)
    (l : list (Z * CandleDataInput.t F)) :
  In x (insert_by_index r l) <-> x = r \/ In x l.
Proof.
  induction l as [|r' rest IH]; simpl.
  - intuition congruence.
  - destruct (fst r <=? fst r'); simpl; [intuition congruence|].
    rewrite IH. intuition congruence.
Qed.

Lemma In_sort_index (x : Z * CandleDataInput.t F)
    (l : list (Z * CandleDataInput.t F)) :
  In x (sort_index l) <-> In x l.
Proof.
  unfold sort_index. induction l as [|r rest IH]; simpl; [tauto|].
  rewrite In_insert_by_index, IH. intuition congruence.
Qed.

(** When every timestamp parses, every candle is paired with its key. *)
Lemma parse_timestamps_all (to_datetime : string -> option Z)
    (data : list (CandleDataInput.t F)) :
  (forall c, In c data -> to_datetime (CandleDataInput.timestamp c) <> None) ->
  exists keyed,
    parse_timestamps to_datetime data = Some keyed
    /\ forall c, In c data -> exists ts, In (ts, c) keyed.
Proof.
  induction data as [|c rest IH]; intros Hall; simpl.
  - exists []. split; [reflexivity|]. intros c [].
  - destruct (to_datetime (CandleDataInput.timestamp c)) as [ts|] eqn:E.
    2:{ exfalso. apply (Hall c); [now left|assumption]. }
    destruct IH as (keyed & -> & Hk).
    { intros c' Hc'. apply Hall. now right. }
    exists ((ts, c) :: keyed). split; [reflexivity|].
    intros c' [<-|Hc'].
    + exists ts. now left.
    + destruct (Hk c' Hc') as [ts' Hts']. exists ts'. now right.
Qed.

End PreprocessFacts.

(** C8.  Preprocessor flat-candle safety: on a non-empty request whose
    timestamps parse, the preprocessor returns a frame (nothing is raised,
    flat candles or not) in which every candle of the request has a row with
    its prices; the row's [body_ratio] is 0 when [high - low == 0] and
    [(|close - open| / (high - low)) * 100] otherwise. *)
Theorem preprocess_body_ratio
    {F : Type} {N : Number F} (to_datetime : string -> option Z)
    (data : list (CandleDataInput.t F)) :
  data <> [] ->
  (forall c, In c data -> to_datetime (CandleDataInput.timestamp c) <> None) ->
  exists df,
    preprocess_data_from_json to_datetime data = Ok df
    /\ forall c, In c data ->
         exists row,
           In row df
           /\ open row = CandleDataInput.open c
           /\ high row = CandleDataInput.high c
           /\ low row = CandleDataInput.low c
           /\ close row = CandleDataInput.close c
           /\ ((high row - low row =? $0)%num = true ->
               body_ratio row = ($0)%num)
           /\ ((high row - low row =? $0)%num = false ->
               body_ratio row
               = (fabs (close row - open row) / (high row - low row) * $100)%num).
Proof.
  intros Hne Hall.
  destruct (parse_timestamps_all to_datetime data Hall) as (keyed & Hp & Hk).
  unfold preprocess_data_from_json. rewrite Hp.
  destruct data as [|c0 rest]; [congruence|].
  eexists. split; [reflexivity|].
  intros c Hc. destruct (Hk c Hc) as [ts Hts].
  exists (candle_metrics ts c). split.
  - apply in_map_iff. exists (ts, c). split; [reflexivity|].
    now apply In_sort_index.
  - simpl. repeat split; try reflexivity.
    + now intros ->.
    + now intros ->.
Qed.

(* ================================================================== *)
(** ** Range detector *)

Section RangeFacts.

Context {F : Type} {N : Number F}.

(** A window that starts inside [0, len - min_candles] has exactly
    [min_candles] rows. *)
Lemma len_window_at (cfg : RangeConfig F) (df : DataFrame F) (s : Z) :
  0 <= min_candles cfg ->
  0 <= s <= len df - min_candles cfg ->
  len (window_at cfg df s) = min_candles cfg.
Proof.
  intros Hm Hs. unfold window_at.
  assert (Ha : slice_bound (len df) s = s).
  { unfold slice_bound. destruct (Z.ltb_spec s 0); lia. }
  assert (Hb : slice_bound (len df) (s + min_candles cfg) = s + min_candles cfg).
  { unfold slice_bound. destruct (Z.ltb_spec (s + min_candles cfg) 0); lia. }
  rewrite len_iloc_slice; rewrite Ha, Hb; lia.
Qed.

(** One iteration of the loop of [detect_range] accepts exactly the
    windows that meet the five conditions, and reports [range_of]. *)
Lemma detect_range_at_qualifies (cfg : RangeConfig F) (df : DataFrame F) (s : Z) :
  window_at cfg df s <> [] ->
  detect_range_at cfg df s
  = Ok (if qualifies cfg (window_at cfg df s)
        then Some (range_of cfg df s) else None).
Proof.
  intros Hne. unfold detect_range_at, qualifies, range_of.
  fold (window_at cfg df s). set (w := window_at cfg df s) in *.
  fold (window_high w) (window_low w).
  unfold extremes_ok.
  destruct (isna (window_high w)); simpl; [reflexivity|].
  destruct (window_high w <=? window_low w)%num; simpl; [reflexivity|].
  unfold touches_ok, resistance_touches, support_touches.
  rewrite !Z.geb_leb.
  destruct (_ <=? _)%Z; simpl; [|reflexivity].
  destruct (_ <=? _)%Z; simpl; [|reflexivity].
  unfold width_ok, width_in_bounds. fold (window_midpoint w).
  destruct (window_midpoint w =? $0)%num; simpl; [reflexivity|].
  fold (window_width_pct w).
  destruct (width_min_pct cfg <=? window_width_pct w)%num; simpl; [|reflexivity].
  destruct (window_width_pct w <=? width_max_pct cfg)%num; simpl; [|reflexivity].
  rewrite (iloc_last (col close w) nan).
  2:{ unfold col. destruct w; [congruence|discriminate]. }
  simpl. unfold last_close_ok.
  destruct (_ && _); reflexivity.
Qed.

(** An empty window is skipped or raises, it is never reported. *)
Lemma detect_range_at_some_nonempty (cfg : RangeConfig F) (df : DataFrame F)
    (s : Z) (r : Range.t F) :
  detect_range_at cfg df s = Ok (Some r) -> window_at cfg df s <> [].
Proof.
  unfold detect_range_at. fold (window_at cfg df s).
  intros H Hnil. rewrite Hnil in H. revert H.
  cbn [col map]. rewrite iloc_nil.
  repeat (destruct (_ : bool); simpl; try discriminate).
Qed.

(** What a reported window satisfies. *)
Lemma detect_range_some (cfg : RangeConfig F) (df : DataFrame F) (r : Range.t F) :
  detect_range cfg df = Ok (Some r) ->
  exists s, -1 < s <= len df - min_candles cfg
            /\ qualifies cfg (window_at cfg df s) = true
            /\ r = range_of cfg df s.
Proof.
  unfold detect_range. destruct (len df <? min_candles cfg)%Z; [discriminate|].
  intros H. apply for_return_some in H as (s & Hin & Hs).
  apply range_down_bounds in Hin.
  exists s. split; [assumption|].
  pose proof (detect_range_at_some_nonempty _ _ _ _ Hs) as Hne.
  rewrite (detect_range_at_qualifies _ _ _ Hne) in Hs.
  destruct (qualifies cfg (window_at cfg df s)); [|discriminate].
  split; [reflexivity|]. congruence.
Qed.

End RangeFacts.

(** C3.  Range Detector postcondition: whenever [detect_range] returns a
    window, the window's [width_pct], which is
    [(high - low) / ((high + low) / 2) * 100], lies within
    [[width_min_pct, width_max_pct]] (0.7 to 3.0 with the module's
    constants).  Holds for every arithmetic, binary64 included. *)
Theorem detect_range_width_within_bounds
    {F : Type} {N : Number F} (cfg : RangeConfig F) (df : DataFrame F)
    (r : Range.t F) :
  detect_range cfg df = Ok (Some r) ->
  (width_min_pct cfg <=? Range.width_pct r)%num = true
  /\ (Range.width_pct r <=? width_max_pct cfg)%num = true
  /\ Range.width_pct r
     = ((Range.high r - Range.low r)
        / ((Range.high r + Range.low r) / $2) * $100)%num.
Proof.
  intros H. apply detect_range_some in H as (s & _ & Hq & ->).
  unfold qualifies in Hq.
  apply andb_prop in Hq as [Hq _].
  apply andb_prop in Hq as [_ Hw].
  unfold width_ok, width_in_bounds in Hw.
  apply andb_prop in Hw as [_ Hw].
  apply andb_prop in Hw as [Hmin Hmax].
  repeat split; assumption.
Qed.

(** C4.  Range Detector scan order: candidate windows have the fixed length
    [min_candles]; the first candidate is the one that ends at the most
    recent candle, and the scan walks backward one candle at a time.  A
    window that meets the five conditions while no later-starting window
    does is the one returned, so among several qualifying windows the most
    recent wins; when no start offset qualifies, "no range found" ([None])
    is returned. *)
Theorem detect_range_most_recent_first
    {F : Type} {N : Number F} (cfg : RangeConfig F) (df : DataFrame F) :
  1 <= min_candles cfg ->
  Range.end_index (range_of cfg df (len df - min_candles cfg)) = len df - 1
  /\ (forall s,
         0 <= s <= len df - min_candles cfg ->
         qualifies cfg (window_at cfg df s) = true ->
         (forall s', s < s' <= len df - min_candles cfg ->
                     qualifies cfg (window_at cfg df s') = false) ->
         len (window_at cfg df s) = min_candles cfg
         /\ detect_range cfg df = Ok (Some (range_of cfg df s)))
  /\ ((forall s, 0 <= s <= len df - min_candles cfg ->
                 qualifies cfg (window_at cfg df s) = false) ->
      detect_range cfg df = Ok None).
Proof.
  intros Hmin.
  assert (Hbody : forall s, 0 <= s <= len df - min_candles cfg ->
            detect_range_at cfg df s
            = Ok (if qualifies cfg (window_at cfg df s)
                  then Some (range_of cfg df s) else None)).
  { intros s Hs. apply detect_range_at_qualifies, nonempty_of_len.
    rewrite len_window_at; lia. }
  split; [simpl; lia|]. split.
  - intros s Hs Hq Hlater.
    split; [apply len_window_at; lia|].
    unfold detect_range.
    destruct (Z.ltb_spec (len df) (min_candles cfg)); [lia|].
    rewrite (range_down_split (len df - min_candles cfg) s (-1)) by lia.
    apply for_return_first.
    + intros j Hj. apply range_down_bounds in Hj.
      rewrite Hbody by lia. now rewrite Hlater by lia.
    + rewrite Hbody by lia. now rewrite Hq.
  - intros Hnone. unfold detect_range.
    destruct (Z.ltb_spec (len df) (min_candles cfg)); [reflexivity|].
    apply for_return_all_continue.
    intros j Hj. apply range_down_bounds in Hj.
    rewrite Hbody by lia. now rewrite Hnone by lia.
Qed.

(** Neither loop iteration nor the whole scan of [detect_range] raises. *)
Lemma detect_range_at_total
    {F : Type} {N : Number F} (cfg : RangeConfig F) (df : DataFrame F) (s : Z) :
  1 <= min_candles cfg -> 0 <= s <= len df - min_candles cfg ->
  exists v, detect_range_at cfg df s = Ok v.
Proof.
  intros Hmin Hs. rewrite detect_range_at_qualifies; [eauto|].
  apply nonempty_of_len. rewrite len_window_at; lia.
Qed.

Lemma detect_range_total
    {F : Type} {N : Number F} (cfg : RangeConfig F) (df : DataFrame F) :
  1 <= min_candles cfg -> exists v, detect_range cfg df = Ok v.
Proof.
  intros Hmin. unfold detect_range.
  destruct (Z.ltb_spec (len df) (min_candles cfg)); [eauto|].
  apply for_return_total. intros s Hs. apply range_down_bounds in Hs.
  apply detect_range_at_total; lia.
Qed.

(** A window whose high is NaN, or not above its low, is skipped. *)
Lemma detect_range_at_skips_degenerate
    {F : Type} {N : Number F} (cfg : RangeConfig F) (df : DataFrame F) (s : Z) :
  isna (window_high (window_at cfg df s)) = true
  \/ (window_high (window_at cfg df s) <=? window_low (window_at cfg df s))%num = true ->
  detect_range_at cfg df s = Ok None.
Proof.
  intros H. unfold detect_range_at.
  fold (window_at cfg df s). fold (window_high (window_at cfg df s)).
  fold (window_low (window_at cfg df s)).
  apply orb_true_iff in H. now rewrite H.
Qed.

(** A series shorter than [min_candles] has no range. *)
Lemma detect_range_short
    {F : Type} {N : Number F} (cfg : RangeConfig F) (df : DataFrame F) :
  len df < min_candles cfg -> detect_range cfg df = Ok None.
Proof.
  intros H. unfold detect_range.
  now destruct (Z.ltb_spec (len df) (min_candles cfg)); [|lia].
Qed.


(** *** The zero-midpoint guard under the module's constants

    A quotient by a zero midpoint is an infinity or NaN in binary64 and is
    undefined in exact arithmetic; neither lies within the width bounds, so
    condition 4 of the specification and the guarded test of the code accept
    the same windows. *)

Lemma binary64_quotient_by_zero_out_of_bounds (width midpoint : float) :
  (midpoint =? 0)%float = true ->
  ((0.7 <=? width / midpoint * 100) && (width / midpoint * 100 <=? 3.0))%float
  = false.
Proof.
  rewrite FloatAxioms.eqb_spec, !FloatAxioms.leb_spec, FloatAxioms.mul_spec,
    FloatAxioms.div_spec.
  change (Prim2SF 0%float) with (S754_zero false).
  replace (Prim2SF 100%float) with (S754_finite false 7036874417766400 (-46))
    by (vm_compute; reflexivity).
  replace (Prim2SF 0.7%float) with (S754_finite false 6305039478318694 (-53))
    by (vm_compute; reflexivity).
  replace (Prim2SF 3.0%float) with (S754_finite false 6755399441055744 (-51))
    by (vm_compute; reflexivity).
  destruct (Prim2SF midpoint) as [sm|sm| |sm mm em];
    try destruct sm; try discriminate; intros _;
    destruct (Prim2SF width) as [sw|sw| |sw mw ew];
    try destruct sw; reflexivity.
Qed.

Lemma binary64_width_guard_redundant (w : DataFrame float) :
  width_ok RANGE_CONFIG w = width_in_bounds RANGE_CONFIG w.
Proof.
  unfold width_ok. destruct (window_midpoint w =? $0)%num eqn:E; [|reflexivity].
  simpl. symmetry.
  apply (binary64_quotient_by_zero_out_of_bounds
           (window_high w - window_low w)%float (window_midpoint w) E).
Qed.

Lemma exact_width_guard_redundant (cfg : RangeConfig Exact.num)
    (w : DataFrame Exact.num) :
  width_ok cfg w = width_in_bounds cfg w.
Proof.
  unfold width_ok. destruct (window_midpoint w =? $0)%num eqn:E; [|reflexivity].
  simpl. symmetry. unfold width_in_bounds, window_width_pct.
  destruct (window_midpoint w) as [m|]; [|discriminate].
  simpl in E.
  destruct (window_high w - window_low w)%num as [d|]; simpl.
  - change (inject_Z 0) with 0%Q in E. rewrite E. simpl.
    now destruct (width_min_pct cfg).
  - now destruct (width_min_pct cfg).
Qed.

(* ================================================================== *)
(** ** Impulse detector *)

Section ImpulseFacts.

Context {F : Type} {N : Number F}.

(** The trailing [n] candles of a series that has at least [n]. *)
Lemma len_trailing (df : DataFrame F) (n : Z) :
  1 <= n <= len df -> len (iloc_slice (Some (- n)) None df) = n.
Proof.
  intros Hn. rewrite len_iloc_slice_from. unfold slice_bound.
  destruct (Z.ltb_spec (- n) 0); lia.
Qed.

(** A candidate length longer than the series is skipped. *)
Lemma check_recent_impulse_at_short (cfg : ImpulseConfig F) (df : DataFrame F) (n : Z) :
  len df < n -> check_recent_impulse_at cfg df n = Ok None.
Proof.
  intros H. unfold check_recent_impulse_at.
  now destruct (Z.ltb_spec (len df) n); [|lia].
Qed.

(** One iteration never raises when the candidate length is positive. *)
Lemma check_recent_impulse_at_total (cfg : ImpulseConfig F) (df : DataFrame F) (n : Z) :
  1 <= n -> exists v, check_recent_impulse_at cfg df n = Ok v.
Proof.
  intros Hn. unfold check_recent_impulse_at.
  destruct (Z.ltb_spec (len df) n) as [Hlt|Hge]; [eauto|].
  set (subset := iloc_slice (Some (- n)) None df).
  assert (Hlen : len subset = n) by (apply len_trailing; lia).
  destruct (iloc_in_bounds (col open subset) 0) as [sp ->].
  { unfold col. rewrite len_map. lia. }
  destruct (iloc_in_bounds (col close subset) (-1)) as [ep ->].
  { unfold col. rewrite len_map. lia. }
  simpl.
  repeat match goal with
         | |- exists v, (if ?c then _ else _) = Ok v => destruct c
         end; eauto.
Qed.

(** The result of one iteration is [continue] or [return True]. *)
Lemma check_recent_impulse_at_cases (cfg : ImpulseConfig F) (df : DataFrame F)
    (n : Z) (v : option bool) :
  check_recent_impulse_at cfg df n = Ok v -> v = None \/ v = Some true.
Proof.
  unfold check_recent_impulse_at.
  destruct (len df <? n); [intros [= <-]; now left|].
  destruct (iloc _ 0) as [sp|]; [|discriminate].
  destruct (iloc _ (-1)) as [ep|]; [|discriminate].
  simpl.
  repeat match goal with
         | |- (if ?c then _ else _) = Ok v -> _ => destruct c
         end; intros [= <-]; auto.
Qed.

(** A candidate length whose starting open is zero is skipped. *)
Lemma check_recent_impulse_at_skips_zero_start
    (cfg : ImpulseConfig F) (df : DataFrame F) (n : Z) (start_price : F) :
  iloc (col open (iloc_slice (Some (- n)) None df)) 0 = Ok start_price ->
  (start_price =? $0)%num = true ->
  check_recent_impulse_at cfg df n = Ok None.
Proof.
  intros Hs Hz. unfold check_recent_impulse_at.
  destruct (len df <? n); [reflexivity|].
  rewrite Hs. simpl.
  set (subset := iloc_slice (Some (- n)) None df) in *.
  destruct (iloc (col close subset) (-1)) as [ep|e] eqn:He.
  - simpl. now rewrite Hz.
  - exfalso. destruct subset as [|row rest].
    + simpl in Hs. rewrite iloc_nil in Hs. discriminate.
    + rewrite (iloc_last _ nan) in He; [discriminate|]. discriminate.
Qed.

Lemma check_recent_impulse_total (cfg : ImpulseConfig F) (df : DataFrame F) :
  1 <= min_candles_consecutive cfg ->
  exists b, check_recent_impulse cfg df = Ok b.
Proof.
  intros Hmin. unfold check_recent_impulse.
  destruct (for_return_total (check_recent_impulse_at cfg df)
              (range_up (min_candles_consecutive cfg) (max_candles_total cfg + 1)))
    as [[b|] ->]; simpl; eauto.
  intros n Hn. apply range_up_ge in Hn.
  apply check_recent_impulse_at_total. lia.
Qed.

(** A series shorter than every candidate length has no impulse. *)
Lemma check_recent_impulse_short (cfg : ImpulseConfig F) (df : DataFrame F) :
  len df < min_candles_consecutive cfg ->
  check_recent_impulse cfg df = Ok false.
Proof.
  intros H. unfold check_recent_impulse.
  rewrite for_return_all_continue; [reflexivity|].
  intros n Hn. apply range_up_ge in Hn.
  apply check_recent_impulse_at_short. lia.
Qed.

(** *** Monotonicity in the thresholds *)

Variable laws : OrderLaws N.

Lemma ltb_raised (x t t' : F) :
  raised t t' -> (x <? t)%num = true -> (x <? t')%num = true.
Proof.
  intros [<-|Hle] Hlt; [assumption|].
  eapply ltb_leb_trans; eassumption.
Qed.

Lemma not_ltb_raised (x t t' : F) :
  raised t t' -> (x <? t')%num = false -> (x <? t)%num = false.
Proof.
  intros Hr Hf. destruct (x <? t)%num eqn:E; [|reflexivity].
  now rewrite (ltb_raised x t t' Hr E) in Hf.
Qed.

Variables lax strict : ImpulseConfig F.
Hypothesis same_min : min_candles_consecutive strict = min_candles_consecutive lax.
Hypothesis same_max : max_candles_total strict = max_candles_total lax.
Hypothesis raised_total : raised (min_total_pct_change lax) (min_total_pct_change strict).
Hypothesis raised_body : raised (min_body_pct lax) (min_body_pct strict).

(** A length that qualifies under the stricter thresholds qualifies under
    the laxer ones; a length skipped under the stricter ones is skipped or
    qualifies. *)
Lemma check_recent_impulse_at_mono (df : DataFrame F) (n : Z) (v : option bool) :
  check_recent_impulse_at strict df n = Ok v ->
  check_recent_impulse_at lax df n = Ok (Some true)
  \/ (v = None /\ check_recent_impulse_at lax df n = Ok None).
Proof.
  unfold check_recent_impulse_at.
  destruct (len df <? n); [intros [= <-]; now right|].
  destruct (iloc _ 0) as [sp|]; [|discriminate].
  destruct (iloc _ (-1)) as [ep|]; [|discriminate].
  simpl.
  destruct (sp =? $0)%num; [intros [= <-]; now right|].
  set (pct := (fabs ((ep - sp) / sp) * $100)%num).
  set (mean := series_mean _).
  destruct (pct <? min_total_pct_change strict)%num eqn:Et.
  - intros [= <-].
    destruct (pct <? min_total_pct_change lax)%num; [now right|].
    destruct (mean <? min_body_pct lax)%num; [now right|].
    destruct (forallb _ _); [now left|now right].
  - rewrite (not_ltb_raised _ _ _ raised_total Et).
    destruct (mean <? min_body_pct strict)%num eqn:Eb.
    + intros [= <-].
      destruct (mean <? min_body_pct lax)%num; [now right|].
      destruct (forallb _ _); [now left|now right].
    + rewrite (not_ltb_raised _ _ _ raised_body Eb).
      destruct (forallb _ _); intros [= <-]; [now left|now right].
Qed.

Lemma for_return_impulse_mono (df : DataFrame F) (items : list Z) :
  for_return (check_recent_impulse_at strict df) items = Ok (Some true) ->
  for_return (check_recent_impulse_at lax df) items = Ok (Some true).
Proof.
  induction items as [|n rest IH]; simpl; [discriminate|].
  destruct (check_recent_impulse_at strict df n) as [v|e] eqn:Es; [|discriminate].
  destruct (check_recent_impulse_at_mono df n v Es) as [Hl|[-> Hl]]; rewrite Hl.
  - reflexivity.
  - exact IH.
Qed.

Lemma check_recent_impulse_mono (df : DataFrame F) :
  check_recent_impulse strict df = Ok true ->
  check_recent_impulse lax df = Ok true.
Proof.
  unfold check_recent_impulse. rewrite same_min, same_max.
  destruct (for_return (check_recent_impulse_at strict df) _) as [[b|]|e] eqn:E;
    simpl; try discriminate.
  intros [= ->]. now rewrite (for_return_impulse_mono df _ E).
Qed.

End ImpulseFacts.

(* ================================================================== *)
(** ** Trend / break-of-structure detector *)

(** C6.  A series with fewer than [lookback + 1] candles (11 with the
    module's constant) yields [(None, False)]; a longer series yields a
    pair (the detector does not raise) whose break-of-structure flag is
    [False] whenever its trend is [None]. *)
Theorem detect_trend_and_bos_none_without_bos
    {F : Type} {N : Number F} (cfg : TrendConfig F) (df : DataFrame F) :
  (len df < TREND_LOOKBACK cfg + 1 ->
   detect_trend_and_bos cfg df = Ok (None, false))
  /\ (1 <= TREND_LOOKBACK cfg -> TREND_LOOKBACK cfg + 1 <= len df ->
      exists trend bos,
        detect_trend_and_bos cfg df = Ok (trend, bos)
        /\ (trend = None -> bos = false)).
Proof.
  unfold detect_trend_and_bos. split.
  - intros H. now destruct (Z.ltb_spec (len df) (TREND_LOOKBACK cfg + 1)); [|lia].
  - intros Hlb Hlen.
    destruct (Z.ltb_spec (len df) (TREND_LOOKBACK cfg + 1)); [lia|].
    set (lookback_data := iloc_slice (Some (- TREND_LOOKBACK cfg - 1)) (Some (-1)) df).
    set (recent_data := iloc_slice (Some (- TREND_LOOKBACK cfg)) None df).
    assert (Hrecent : len recent_data = TREND_LOOKBACK cfg).
    { unfold recent_data. rewrite len_iloc_slice_from. unfold slice_bound.
      destruct (Z.ltb_spec (- TREND_LOOKBACK cfg) 0); lia. }
    assert (Hlookback : len lookback_data = TREND_LOOKBACK cfg).
    { unfold lookback_data.
      assert (Ha : slice_bound (len df) (- TREND_LOOKBACK cfg - 1)
                   = len df - TREND_LOOKBACK cfg - 1).
      { unfold slice_bound.
        destruct (Z.ltb_spec (- TREND_LOOKBACK cfg - 1) 0); lia. }
      assert (Hb : slice_bound (len df) (-1) = len df - 1).
      { unfold slice_bound. change (-1 <? 0) with true. cbv iota. lia. }
      rewrite len_iloc_slice; rewrite Ha, Hb; lia. }
    destruct (iloc_in_bounds (col close recent_data) (-1)) as [rc ->].
    { unfold col. rewrite len_map. lia. }
    destruct (iloc_in_bounds (col close lookback_data) 0) as [fc ->].
    { unfold col. rewrite len_map. lia. }
    simpl.
    destruct (iloc_in_bounds (col high df) (-1)) as [lh Hlh].
    { unfold col. rewrite len_map. lia. }
    destruct (iloc_in_bounds (col low df) (-1)) as [ll Hll].
    { unfold col. rewrite len_map. lia. }
    destruct (_ <? _)%num.
    + rewrite Hlh. simpl. eexists _, _. split; [reflexivity|discriminate].
    + destruct (_ <? _)%num.
      * rewrite Hll. simpl. eexists _, _. split; [reflexivity|discriminate].
      * eexists _, _. split; reflexivity.
Qed.

(* ================================================================== *)
(** ** Decision engine *)

Section DecisionFacts.

Context {F : Type} {N : Number F}.
Variables (rcfg : RangeConfig F) (icfg : ImpulseConfig F) (tcfg : TrendConfig F).

(** Step 1 returns as soon as its three conditions hold; step 2 is not
    consulted. *)
Lemma analyze_data_limit_catch (df : DataFrame F) (r : Range.t F) (last_close : F) :
  detect_range rcfg df = Ok (Some r) ->
  iloc (col close df) (-1) = Ok last_close ->
  check_price_near_extreme last_close (Range.low r) (Range.high r)
                           (midrange_pct rcfg) = true ->
  check_recent_impulse icfg (iloc_slice None (Some (Range.start_index r)) df)
  = Ok false ->
  analyze_data rcfg icfg tcfg df
  = Ok (LIMIT_CATCH_ENTRY,
        [RangeDetected (Range.low r) (Range.high r) (Range.width_pct r);
         EntryZoneNoPriorImpulse]).
Proof.
  intros Hr Hc Hz Hi. unfold analyze_data.
  rewrite Hr. simpl. rewrite Hc. simpl. rewrite Hz, Hi. reflexivity.
Qed.

(** Without a range only steps 2 and 3 can answer. *)
Lemma analyze_data_no_range (df : DataFrame F) (label : string)
    (reason : list (Reason F)) :
  detect_range rcfg df = Ok None ->
  analyze_data rcfg icfg tcfg df = Ok (label, reason) ->
  label = IN_PRICE_ENTRY \/ label = NO_ENTRY.
Proof.
  intros Hr. unfold analyze_data. rewrite Hr. simpl.
  destruct (iloc (col close df) (-1)); simpl; [|discriminate].
  destruct (detect_trend_and_bos tcfg df) as [[trend bos]|]; simpl; [|discriminate].
  destruct (check_recent_impulse icfg df); simpl; [|discriminate].
  destruct (_ && _); intros [= <- _]; auto.
Qed.

End DecisionFacts.

(** C1.  Decision Engine priority: when the Limit Catch conditions hold (a
    range is detected, the latest close lies in the entry zone, no impulse
    in the sub-series before the range's start index) and the In-Price
    conditions hold as well (a trend, break-of-structure, no current
    impulse), [analyze_data] answers "Limit Catch Entry": step 1
    short-circuits step 2. *)
Theorem limit_catch_short_circuits_in_price
    {F : Type} {N : Number F}
    (rcfg : RangeConfig F) (icfg : ImpulseConfig F) (tcfg : TrendConfig F)
    (df : DataFrame F) (r : Range.t F) (last_close : F) (trend : Trend) :
  detect_range rcfg df = Ok (Some r) ->
  iloc (col close df) (-1) = Ok last_close ->
  check_price_near_extreme last_close (Range.low r) (Range.high r)
                           (midrange_pct rcfg) = true ->
  check_recent_impulse icfg (iloc_slice None (Some (Range.start_index r)) df)
  = Ok false ->
  detect_trend_and_bos tcfg df = Ok (Some trend, true) ->
  check_recent_impulse icfg df = Ok false ->
  exists reason,
    analyze_data rcfg icfg tcfg df = Ok (LIMIT_CATCH_ENTRY, reason).
Proof.
  intros Hr Hc Hz Hpre _ _. eexists.
  now apply (analyze_data_limit_catch rcfg icfg tcfg df r last_close).
Qed.

(** C5.  A series with fewer than [min_candles] candles (15 with the
    module's constant) has no range, and [analyze_data] on it never answers
    "Limit Catch Entry". *)
Theorem short_series_never_limit_catch
    {F : Type} {N : Number F}
    (rcfg : RangeConfig F) (icfg : ImpulseConfig F) (tcfg : TrendConfig F)
    (df : DataFrame F) :
  len df < min_candles rcfg ->
  detect_range rcfg df = Ok None
  /\ forall reason,
       analyze_data rcfg icfg tcfg df <> Ok (LIMIT_CATCH_ENTRY, reason).
Proof.
  intros Hlen. pose proof (detect_range_short rcfg df Hlen) as Hr.
  split; [assumption|].
  intros reason Ha.
  destruct (analyze_data_no_range rcfg icfg tcfg df _ _ Hr Ha); discriminate.
Qed.

(** C7.  Impulse Detector monotonicity in the thresholds: for a fixed
    series and two configurations that differ only in that
    [min_total_pct_change] or [min_body_pct] (or both) is raised, an impulse
    reported under the stricter configuration is reported under the laxer
    one.  Holds for every arithmetic whose comparisons obey [OrderLaws],
    binary64 included. *)
Theorem impulse_monotone_in_thresholds
    {F : Type} {N : Number F} (laws : OrderLaws N)
    (lax strict : ImpulseConfig F) (df : DataFrame F) :
  min_candles_consecutive strict = min_candles_consecutive lax ->
  max_candles_total strict = max_candles_total lax ->
  raised (min_total_pct_change lax) (min_total_pct_change strict) ->
  raised (min_body_pct lax) (min_body_pct strict) ->
  check_recent_impulse strict df = Ok true ->
  check_recent_impulse lax df = Ok true.
Proof.
  intros. now apply (check_recent_impulse_mono laws lax strict).
Qed.

(** C9.  Detector edge cases never raise: a candidate window whose high is
    NaN or not above its low makes its iteration fall through, so the scan
    goes on with the next start offset; a candidate impulse length whose
    starting open is 0 does the same, so the next length is tried; and both
    detectors return a value on every series. *)
Theorem detectors_skip_edge_cases_and_never_raise
    {F : Type} {N : Number F}
    (rcfg : RangeConfig F) (icfg : ImpulseConfig F) (df : DataFrame F) :
  1 <= min_candles rcfg ->
  1 <= min_candles_consecutive icfg ->
  (forall s rest,
      isna (window_high (window_at rcfg df s)) = true
      \/ (window_high (window_at rcfg df s)
          <=? window_low (window_at rcfg df s))%num = true ->
      detect_range_at rcfg df s = Ok None
      /\ for_return (detect_range_at rcfg df) (s :: rest)
         = for_return (detect_range_at rcfg df) rest)
  /\ (forall n rest start_price,
         iloc (col open (iloc_slice (Some (- n)) None df)) 0 = Ok start_price ->
         (start_price =? $0)%num = true ->
         check_recent_impulse_at icfg df n = Ok None
         /\ for_return (check_recent_impulse_at icfg df) (n :: rest)
            = for_return (check_recent_impulse_at icfg df) rest)
  /\ (exists found, detect_range rcfg df = Ok found)
  /\ (exists impulse, check_recent_impulse icfg df = Ok impulse).
Proof.
  intros Hr Hi. repeat split.
  - now apply detect_range_at_skips_degenerate.
  - simpl. now rewrite detect_range_at_skips_degenerate.
  - now apply (check_recent_impulse_at_skips_zero_start icfg df n start_price).
  - simpl.
    now rewrite (check_recent_impulse_at_skips_zero_start icfg df n start_price).
  - now apply detect_range_total.
  - now apply check_recent_impulse_total.
Qed.

(** C10.  [check_recent_impulse] on a series with fewer than
    [min_candles_consecutive] candles returns [False] and does not raise;
    the pre-range sub-series of a range that starts at index 0 is such a
    series (it is empty), hence a range starting at index 0 with the latest
    close in the entry zone is classified "Limit Catch Entry". *)
Theorem impulse_total_on_short_series
    {F : Type} {N : Number F}
    (rcfg : RangeConfig F) (icfg : ImpulseConfig F) (tcfg : TrendConfig F)
    (df : DataFrame F) :
  (len df < min_candles_consecutive icfg ->
   check_recent_impulse icfg df = Ok false)
  /\ (forall r last_close,
         1 <= min_candles_consecutive icfg ->
         detect_range rcfg df = Ok (Some r) ->
         Range.start_index r = 0 ->
         iloc (col close df) (-1) = Ok last_close ->
         check_price_near_extreme last_close (Range.low r) (Range.high r)
                                  (midrange_pct rcfg) = true ->
         iloc_slice None (Some (Range.start_index r)) df = []
         /\ check_recent_impulse icfg [] = Ok false
         /\ exists reason,
              analyze_data rcfg icfg tcfg df = Ok (LIMIT_CATCH_ENTRY, reason)).
Proof.
  split.
  - apply check_recent_impulse_short.
  - intros r last_close Hmin Hr H0 Hc Hz.
    assert (Hpre : iloc_slice None (Some (Range.start_index r)) df = []).
    { rewrite H0. apply iloc_slice_to_0. }
    assert (Hempty : check_recent_impulse icfg (@nil (Row F)) = Ok false).
    { apply check_recent_impulse_short. rewrite len_nil. lia. }
    repeat split; try assumption.
    eexists. apply (analyze_data_limit_catch rcfg icfg tcfg df r last_close);
      try assumption.
    now rewrite Hpre.
Qed.

(* ================================================================== *)
(** ** Entry zone *)

(** With a positive width the zone test is the disjunction of the two band
    tests. *)
Lemma check_price_near_extreme_bands
    {F : Type} {N : Number F} (laws : OrderLaws N)
    (price range_low range_high midrange_pct : F) :
  ($0 <? range_high - range_low)%num = true ->
  check_price_near_extreme price range_low range_high midrange_pct
  = ((price <? range_low + (range_high - range_low)
                           * (($100 - midrange_pct) / $2 / $100))
     || (price >? range_high - (range_high - range_low)
                               * (($100 - midrange_pct) / $2 / $100)))%num.
Proof.
  intros Hw. unfold check_price_near_extreme.
  now rewrite (ltb_not_leb N laws _ _ Hw).
Qed.

(** In exact arithmetic, a price above the 85th percentile of a range of
    positive width is in the upper band left by a 30% mid-range. *)
Lemma exact_above_85th_percentile_in_zone (price range_low range_high : Exact.num) :
  ($0 <? range_high - range_low)%num = true ->
  (price >? range_low + (range_high - range_low) * Some (85 # 100)%Q)%num = true ->
  check_price_near_extreme price range_low range_high ($30)%num = true.
Proof.
  destruct price as [c|], range_low as [l|], range_high as [h|];
    simpl; try discriminate.
  unfold check_price_near_extreme. simpl.
  unfold Exact.qltb. rewrite !negb_true_iff.
  intros Hw Hc. rewrite Hw.
  apply orb_true_iff. right. apply negb_true_iff.
  apply not_true_is_false. intros E.
  apply Qle_bool_iff in E.
  assert (Hw' : ~ (h - l <= inject_Z 0)%Q).
  { rewrite <- Qle_bool_iff. congruence. }
  assert (Hc' : ~ (c <= l + (h - l) * (85 # 100))%Q).
  { rewrite <- Qle_bool_iff. congruence. }
  assert (Hk : ((inject_Z 100 - inject_Z 30) / inject_Z 2 / inject_Z 100 == 35 # 100)%Q)
    by reflexivity.
  rewrite Hk in E. change (inject_Z 0) with 0%Q in Hw'.
  lra.
Qed.

(** In exact arithmetic it does not matter whether the width is multiplied
    by the share [k] or by [(100 - midrange_pct) / 2] and the product then
    divided by 100. *)
Lemma exact_check_price_near_extreme_bands (c L H midrange_pct : Exact.num) :
  ($0 <? H - L)%num = true ->
  check_price_near_extreme c L H midrange_pct
  = ((c <? L + (H - L) * (($100 - midrange_pct) / $2) / $100)
     || (c >? H - (H - L) * (($100 - midrange_pct) / $2) / $100))%num.
Proof.
  intros Hw. rewrite (check_price_near_extreme_bands exact_laws) by assumption.
  destruct c as [c|], L as [l|], H as [h|], midrange_pct as [mp|];
    simpl in *; try reflexivity; try discriminate.
  assert (Hk : ((h - l) * ((inject_Z 100 - mp) / inject_Z 2 / inject_Z 100)
                == (h - l) * ((inject_Z 100 - mp) / inject_Z 2) / inject_Z 100)%Q).
  { unfold Qdiv. ring. }
  unfold Exact.qltb. now rewrite Hk.
Qed.


(* ================================================================== *)
(** ** The theorems at work on the sample series (binary64 unless said
    otherwise) *)

Lemma limit_catch_short_circuits_in_price_witness :
  detect_trend_and_bos TREND_CONFIG Sample.both_setups = Ok (Some uptrend, true)
  /\ check_recent_impulse IMPULSE_CONFIG Sample.both_setups = Ok false
  /\ exists reason,
       analyze_data RANGE_CONFIG IMPULSE_CONFIG TREND_CONFIG Sample.both_setups
       = Ok (LIMIT_CATCH_ENTRY, reason).
Proof.
  split; [vm_compute; reflexivity|]. split; [vm_compute; reflexivity|].
  apply (limit_catch_short_circuits_in_price
           RANGE_CONFIG IMPULSE_CONFIG TREND_CONFIG Sample.both_setups
           (range_of RANGE_CONFIG Sample.both_setups 2) 100.9%float uptrend);
    vm_compute; reflexivity.
Defined.


Lemma detect_range_width_within_bounds_witness :
  let r := range_of RANGE_CONFIG Sample.both_setups 2 in
  detect_range RANGE_CONFIG Sample.both_setups = Ok (Some r)
  /\ (width_min_pct RANGE_CONFIG <=? Range.width_pct r)%num = true
  /\ (Range.width_pct r <=? width_max_pct RANGE_CONFIG)%num = true
  /\ Range.width_pct r
     = ((Range.high r - Range.low r)
        / ((Range.high r + Range.low r) / $2) * $100)%num.
Proof.
  intros r.
  assert (H : detect_range RANGE_CONFIG Sample.both_setups = Ok (Some r))
    by (vm_compute; reflexivity).
  split; [exact H|].
  exact (detect_range_width_within_bounds RANGE_CONFIG Sample.both_setups r H).
Defined.

Lemma detect_range_most_recent_first_witness :
  qualifies RANGE_CONFIG (window_at RANGE_CONFIG Sample.two_ranges 0) = true
  /\ qualifies RANGE_CONFIG (window_at RANGE_CONFIG Sample.two_ranges 1) = true
  /\ detect_range RANGE_CONFIG Sample.two_ranges
     = Ok (Some (range_of RANGE_CONFIG Sample.two_ranges 1)).
Proof.
  split; [vm_compute; reflexivity|]. split; [vm_compute; reflexivity|].
  assert (Hmin : 1 <= min_candles RANGE_CONFIG) by (simpl; lia).
  destruct (detect_range_most_recent_first RANGE_CONFIG Sample.two_ranges Hmin)
    as (_ & Hfirst & _).
  apply (Hfirst 1).
  - vm_compute. split; discriminate.
  - vm_compute. reflexivity.
  - intros s' Hs'.
    assert (s' = 2) as -> by (change (len Sample.two_ranges) with 17 in Hs';
                              simpl in Hs'; lia).
    vm_compute. reflexivity.
Defined.

Lemma short_series_never_limit_catch_witness :
  detect_range RANGE_CONFIG Sample.thrust = Ok None
  /\ forall reason,
       analyze_data RANGE_CONFIG IMPULSE_CONFIG TREND_CONFIG Sample.thrust
       <> Ok (LIMIT_CATCH_ENTRY, reason).
Proof.
  apply (short_series_never_limit_catch
           RANGE_CONFIG IMPULSE_CONFIG TREND_CONFIG Sample.thrust).
  vm_compute. reflexivity.
Defined.

Lemma detect_trend_and_bos_none_without_bos_witness :
  detect_trend_and_bos TREND_CONFIG Sample.thrust = Ok (None, false)
  /\ exists trend bos,
       detect_trend_and_bos TREND_CONFIG Sample.both_setups = Ok (trend, bos)
       /\ (trend = None -> bos = false).
Proof.
  split.
  - apply (proj1 (detect_trend_and_bos_none_without_bos TREND_CONFIG Sample.thrust)).
    vm_compute. reflexivity.
  - apply (proj2 (detect_trend_and_bos_none_without_bos
                    TREND_CONFIG Sample.both_setups)).
    + simpl. lia.
    + vm_compute. discriminate.
Defined.

Lemma impulse_monotone_in_thresholds_witness :
  check_recent_impulse IMPULSE_CONFIG Sample.thrust = Ok true
  /\ check_recent_impulse Sample.lax_thresholds Sample.thrust = Ok true.
Proof.
  split; [vm_compute; reflexivity|].
  apply (impulse_monotone_in_thresholds binary64_laws
           Sample.lax_thresholds IMPULSE_CONFIG Sample.thrust).
  - reflexivity.
  - reflexivity.
  - right. vm_compute. reflexivity.
  - right. vm_compute. reflexivity.
  - vm_compute. reflexivity.
Defined.

Lemma preprocess_body_ratio_witness :
  exists df,
    preprocess_data_from_json Sample.day_of_month Sample.request = Ok df
    /\ forall c, In c Sample.request ->
         exists row,
           In row df
           /\ open row = CandleDataInput.open c
           /\ high row = CandleDataInput.high c
           /\ low row = CandleDataInput.low c
           /\ close row = CandleDataInput.close c
           /\ ((high row - low row =? $0)%num = true ->
               body_ratio row = ($0)%num)
           /\ ((high row - low row =? $0)%num = false ->
               body_ratio row
               = (fabs (close row - open row) / (high row - low row) * $100)%num).
Proof.
  apply (preprocess_body_ratio Sample.day_of_month Sample.request).
  - discriminate.
  - intros c [<-|[<-|[]]]; vm_compute; discriminate.
Defined.

Lemma detectors_skip_edge_cases_and_never_raise_witness :
  detect_range_at RANGE_CONFIG Sample.degenerate 0 = Ok None
  /\ check_recent_impulse_at IMPULSE_CONFIG Sample.degenerate 2 = Ok None
  /\ (exists found, detect_range RANGE_CONFIG Sample.degenerate = Ok found)
  /\ (exists impulse, check_recent_impulse IMPULSE_CONFIG Sample.degenerate = Ok impulse).
Proof.
  assert (Hr : 1 <= min_candles RANGE_CONFIG) by (simpl; lia).
  assert (Hi : 1 <= min_candles_consecutive IMPULSE_CONFIG) by (simpl; lia).
  destruct (detectors_skip_edge_cases_and_never_raise
              RANGE_CONFIG IMPULSE_CONFIG Sample.degenerate Hr Hi)
    as (Hwin & Hlen & Hrange & Himpulse).
  split; [|split; [|split; assumption]].
  - apply (Hwin 0 []). left. vm_compute. reflexivity.
  - apply (Hlen 2 [] 0%float); vm_compute; reflexivity.
Defined.

Lemma impulse_total_on_short_series_witness :
  check_recent_impulse IMPULSE_CONFIG [Sample.quiet 0] = Ok false
  /\ exists reason,
       analyze_data RANGE_CONFIG IMPULSE_CONFIG TREND_CONFIG
                    Sample.range_with_breakout
       = Ok (LIMIT_CATCH_ENTRY, reason).
Proof.
  split.
  - apply (proj1 (impulse_total_on_short_series
                    RANGE_CONFIG IMPULSE_CONFIG TREND_CONFIG [Sample.quiet 0])).
    vm_compute. reflexivity.
  - apply (proj2 (impulse_total_on_short_series
                    RANGE_CONFIG IMPULSE_CONFIG TREND_CONFIG
                    Sample.range_with_breakout)
             (range_of RANGE_CONFIG Sample.range_with_breakout 0) 100.9%float).
    + simpl. lia.
    + vm_compute. reflexivity.
    + reflexivity.
    + vm_compute. reflexivity.
    + vm_compute. reflexivity.
Defined.

(* ================================================================== *)
(** ** More on the decision engine *)

Section DecisionMore.

Context {F : Type} {N : Number F}.
Variables (rcfg : RangeConfig F) (icfg : ImpulseConfig F) (tcfg : TrendConfig F).

(** Every way [analyze_data] can return. *)
Lemma analyze_data_inv (df : DataFrame F) (label : string) (reason : list (Reason F)) :
  analyze_data rcfg icfg tcfg df = Ok (label, reason) ->
  exists found last_close,
    detect_range rcfg df = Ok found
    /\ iloc (col close df) (-1) = Ok last_close
    /\ ((exists r, found = Some r
                   /\ limit_catch_setup rcfg icfg df r last_close
                   /\ label = LIMIT_CATCH_ENTRY
                   /\ reason = step1_reason found ++ [EntryZoneNoPriorImpulse])
        \/ (limit_catch_missed rcfg icfg df found last_close
            /\ exists trend bos impulse,
                detect_trend_and_bos tcfg df = Ok (trend, bos)
                /\ check_recent_impulse icfg df = Ok impulse
                /\ ((trend <> None /\ bos = true /\ impulse = false
                     /\ label = IN_PRICE_ENTRY
                     /\ reason = step1_reason found
                                 ++ [TrendBosImpulse trend bos impulse; TrendWithBos])
                    \/ ((trend = None \/ bos = false \/ impulse = true)
                        /\ label = NO_ENTRY
                        /\ reason = step1_reason found
                                    ++ [TrendBosImpulse trend bos impulse])))).
Proof.
  unfold analyze_data.
  destruct (detect_range rcfg df) as [found|] eqn:Hr; simpl; [|discriminate].
  destruct (iloc (col close df) (-1)) as [c|] eqn:Hc; simpl; [|discriminate].
  intros H. exists found, c. split; [reflexivity|]. split; [reflexivity|].
  assert (Hstep2 :
    limit_catch_missed rcfg icfg df found c ->
    (tb <- detect_trend_and_bos tcfg df ;;
     (let '(trend, bos) := tb in
      current_impulse <- check_recent_impulse icfg df ;;
      (let reason0 :=
         step1_reason found ++ [TrendBosImpulse trend bos current_impulse] in
       if (match trend with Some _ => true | None => false end)
          && bos && negb current_impulse
       then Ok (IN_PRICE_ENTRY, reason0 ++ [TrendWithBos])
       else Ok (NO_ENTRY, reason0))))%py = Ok (label, reason) ->
    limit_catch_missed rcfg icfg df found c
    /\ exists trend bos impulse,
        detect_trend_and_bos tcfg df = Ok (trend, bos)
        /\ check_recent_impulse icfg df = Ok impulse
        /\ ((trend <> None /\ bos = true /\ impulse = false
             /\ label = IN_PRICE_ENTRY
             /\ reason = step1_reason found
                         ++ [TrendBosImpulse trend bos impulse; TrendWithBos])
            \/ ((trend = None \/ bos = false \/ impulse = true)
                /\ label = NO_ENTRY
                /\ reason = step1_reason found
                            ++ [TrendBosImpulse trend bos impulse]))).
  { intros Hmiss. split; [assumption|].
    destruct (detect_trend_and_bos tcfg df) as [[trend bos]|]; simpl in *; [|discriminate].
    destruct (check_recent_impulse icfg df) as [impulse|]; simpl in *; [|discriminate].
    exists trend, bos, impulse. split; [reflexivity|]. split; [reflexivity|].
    destruct trend as [t|], bos, impulse; simpl in *;
      injection H0 as <- <-; rewrite <- ?app_assoc; simpl;
      solve [ left; repeat split; congruence
            | right; repeat split; auto ]. }
  destruct found as [r|]; simpl in H.
  - destruct (check_price_near_extreme c (Range.low r) (Range.high r)
                                        (midrange_pct rcfg)) eqn:Hz.
    + destruct (check_recent_impulse icfg _) as [[|]|] eqn:Hp; simpl in H;
        [| |discriminate].
      * right. apply Hstep2; [|exact H]. simpl. right. now split.
      * left. exists r. injection H as <- <-.
        repeat split; assumption.
    + simpl in H. right. apply Hstep2; [|exact H]. simpl. now left.
  - right. apply Hstep2; [exact I|exact H].
Qed.

(** Step 2 answers "In-Price Entry" when step 1 has fallen through and its
    three conditions hold. *)
Lemma analyze_data_in_price (df : DataFrame F) (found : option (Range.t F))
    (last_close : F) (trend : Trend) :
  detect_range rcfg df = Ok found ->
  iloc (col close df) (-1) = Ok last_close ->
  limit_catch_missed rcfg icfg df found last_close ->
  detect_trend_and_bos tcfg df = Ok (Some trend, true) ->
  check_recent_impulse icfg df = Ok false ->
  analyze_data rcfg icfg tcfg df
  = Ok (IN_PRICE_ENTRY,
        step1_reason found
        ++ [TrendBosImpulse (Some trend) true false; TrendWithBos]).
Proof.
  intros Hr Hc Hmiss Ht Hi. unfold analyze_data.
  rewrite Hr. simpl. rewrite Hc. simpl.
  destruct found as [r|]; simpl in *.
  - destruct Hmiss as [Hz|[Hz Hp]]; rewrite Hz; [|rewrite Hp]; simpl;
      rewrite Ht; simpl; rewrite Hi; simpl; rewrite <- ?app_assoc; reflexivity.
  - rewrite Ht. simpl. rewrite Hi. reflexivity.
Qed.

(** The trend detector returns on every series when the lookback is
    positive. *)
Lemma detect_trend_and_bos_total (df : DataFrame F) :
  1 <= TREND_LOOKBACK tcfg ->
  exists tb, detect_trend_and_bos tcfg df = Ok tb.
Proof.
  intros Hlb. unfold detect_trend_and_bos.
  destruct (Z.ltb_spec (len df) (TREND_LOOKBACK tcfg + 1)); [eauto|].
  set (lookback_data := iloc_slice (Some (- TREND_LOOKBACK tcfg - 1)) (Some (-1)) df).
  set (recent_data := iloc_slice (Some (- TREND_LOOKBACK tcfg)) None df).
  assert (Hrecent : len recent_data = TREND_LOOKBACK tcfg).
  { unfold recent_data. rewrite len_iloc_slice_from. unfold slice_bound.
    destruct (Z.ltb_spec (- TREND_LOOKBACK tcfg) 0); lia. }
  assert (Hlookback : len lookback_data = TREND_LOOKBACK tcfg).
  { unfold lookback_data.
    assert (Ha : slice_bound (len df) (- TREND_LOOKBACK tcfg - 1)
                 = len df - TREND_LOOKBACK tcfg - 1).
    { unfold slice_bound.
      destruct (Z.ltb_spec (- TREND_LOOKBACK tcfg - 1) 0); lia. }
    assert (Hb : slice_bound (len df) (-1) = len df - 1).
    { unfold slice_bound. change (-1 <? 0) with true. cbv iota. lia. }
    rewrite len_iloc_slice; rewrite Ha, Hb; lia. }
  destruct (iloc_in_bounds (col close recent_data) (-1)) as [rc ->].
  { unfold col. rewrite len_map. lia. }
  destruct (iloc_in_bounds (col close lookback_data) 0) as [fc ->].
  { unfold col. rewrite len_map. lia. }
  simpl.
  destruct (iloc_in_bounds (col high df) (-1)) as [lh Hlh].
  { unfold col. rewrite len_map. lia. }
  destruct (iloc_in_bounds (col low df) (-1)) as [ll Hll].
  { unfold col. rewrite len_map. lia. }
  destruct (_ <? _)%num; [rewrite Hlh; simpl; eauto|].
  destruct (_ <? _)%num; [rewrite Hll; simpl; eauto|eauto].
Qed.

(** On a series that is not empty, [analyze_data] returns. *)
Lemma analyze_data_total (df : DataFrame F) :
  1 <= min_candles rcfg -> 1 <= min_candles_consecutive icfg ->
  1 <= TREND_LOOKBACK tcfg -> df <> [] ->
  exists answer, analyze_data rcfg icfg tcfg df = Ok answer.
Proof.
  intros Hr Hi Ht Hne. unfold analyze_data.
  destruct (detect_range_total rcfg df Hr) as [found ->]. simpl.
  rewrite (iloc_last (col close df) nan).
  2:{ destruct df; [congruence|discriminate]. }
  simpl.
  destruct (detect_trend_and_bos_total df Ht) as [[trend bos] Htb].
  destruct (check_recent_impulse_total icfg df Hi) as [impulse Himp].
  destruct found as [r|]; simpl.
  - destruct (check_price_near_extreme _ _ _ _); simpl.
    + destruct (check_recent_impulse_total icfg
                  (iloc_slice None (Some (Range.start_index r)) df) Hi) as [[|] ->];
        simpl; [|eauto].
      rewrite Htb. simpl. rewrite Himp. simpl. destruct (_ && _); eauto.
    + rewrite Htb. simpl. rewrite Himp. simpl. destruct (_ && _); eauto.
  - rewrite Htb. simpl. rewrite Himp. simpl. destruct (_ && _); eauto.
Qed.

End DecisionMore.

(* ================================================================== *)
(** ** More on the preprocessor *)

Section PreprocessMore.

Context {F : Type} {N : Number F}.
Variable to_datetime : string -> option Z.

Lemma parse_timestamps_none (data : list (CandleDataInput.t F)) :
  (exists c, In c data /\ to_datetime (CandleDataInput.timestamp c) = None) ->
  parse_timestamps to_datetime data = None.
Proof.
  induction data as [|c rest IH]; intros (c' & Hin & Hc'); [destruct Hin|].
  simpl. destruct Hin as [<-|Hin].
  - now rewrite Hc'.
  - rewrite IH by (exists c'; split; assumption).
    destruct (to_datetime (CandleDataInput.timestamp c)); reflexivity.
Qed.

Lemma parse_timestamps_some (data : list (CandleDataInput.t F)) :
  (forall c, In c data -> to_datetime (CandleDataInput.timestamp c) <> None) ->
  parse_timestamps to_datetime data
  = Some (map (fun c => (timestamp_key to_datetime c, c)) data).
Proof.
  induction data as [|c rest IH]; intros Hall; [reflexivity|].
  simpl. rewrite IH by (intros c' Hc'; apply Hall; now right).
  unfold timestamp_key.
  destruct (to_datetime (CandleDataInput.timestamp c)) eqn:E; [reflexivity|].
  exfalso. apply (Hall c); [now left|assumption].
Qed.

(** Either every timestamp parses or one does not. *)
Lemma timestamps_parse_or_not (data : list (CandleDataInput.t F)) :
  (forall c, In c data -> to_datetime (CandleDataInput.timestamp c) <> None)
  \/ (exists c, In c data /\ to_datetime (CandleDataInput.timestamp c) = None).
Proof.
  induction data as [|c rest [IH|(c' & Hin & Hc')]].
  - left. intros c [].
  - destruct (to_datetime (CandleDataInput.timestamp c)) eqn:E.
    + left. intros c' [<-|Hc']; [congruence|now apply IH].
    + right. exists c. split; [now left|assumption].
  - right. exists c'. split; [now right|assumption].
Qed.

Lemma insert_by_index_perm (r : (Z * CandleDataInput.t F)) (l : list (Z * CandleDataInput.t F)) :
  Permutation (insert_by_index r l) (r :: l).
Proof.
  induction l as [|r' rest IH]; simpl; [reflexivity|].
  destruct (fst r <=? fst r'); [reflexivity|].
  rewrite IH. apply perm_swap.
Qed.

Lemma sort_index_perm (l : list (Z * CandleDataInput.t F)) : Permutation (sort_index l) l.
Proof.
  unfold sort_index. induction l as [|r rest IH]; simpl; [reflexivity|].
  rewrite insert_by_index_perm. now constructor.
Qed.

Lemma insert_by_index_sorted (r : (Z * CandleDataInput.t F)) (l : list (Z * CandleDataInput.t F)) :
  StronglySorted key_le l -> StronglySorted key_le (insert_by_index r l).
Proof.
  induction l as [|r' rest IH]; intros Hs; simpl.
  - constructor; constructor.
  - inversion Hs as [|? ? Hrest Hall]; subst.
    destruct (Z.leb_spec (fst r) (fst r')) as [Hle|Hgt].
    + constructor; [assumption|]. constructor; [exact Hle|].
      eapply Forall_impl; [|exact Hall]. unfold key_le. intros; lia.
    + constructor; [now apply IH|].
      apply Forall_forall. intros x Hx.
      apply (Permutation_in _ (insert_by_index_perm r rest)) in Hx.
      destruct Hx as [<-|Hx]; [unfold key_le; lia|].
      rewrite Forall_forall in Hall. now apply Hall.
Qed.

Lemma sort_index_sorted (l : list (Z * CandleDataInput.t F)) :
  StronglySorted key_le (sort_index l).
Proof.
  unfold sort_index. induction l as [|r rest IH]; simpl; [constructor|].
  now apply insert_by_index_sorted.
Qed.

(** What the preprocessor returns, in one equation. *)
Lemma preprocess_ok (data : list (CandleDataInput.t F)) :
  data <> [] ->
  (forall c, In c data -> to_datetime (CandleDataInput.timestamp c) <> None) ->
  preprocess_data_from_json to_datetime data
  = Ok (map (fun r => candle_metrics (fst r) (snd r))
            (sort_index (map (fun c => (timestamp_key to_datetime c, c)) data))).
Proof.
  intros Hne Hall. unfold preprocess_data_from_json.
  rewrite (parse_timestamps_some data Hall).
  destruct data; [congruence|reflexivity].
Qed.

Lemma preprocess_value_error (data : list (CandleDataInput.t F)) :
  data = []
  \/ (exists c, In c data /\ to_datetime (CandleDataInput.timestamp c) = None) ->
  preprocess_data_from_json to_datetime data = Raise ValueError.
Proof.
  intros [->|Hbad]; [reflexivity|].
  unfold preprocess_data_from_json.
  rewrite (parse_timestamps_none data Hbad). now destruct data.
Qed.

(** A returned frame has as many rows as the request has candles. *)
Lemma preprocess_len (data : list (CandleDataInput.t F)) (df : DataFrame F) :
  preprocess_data_from_json to_datetime data = Ok df -> len df = len data.
Proof.
  intros Hdf.
  assert (Hne : data <> []) by (intros ->; discriminate Hdf).
  destruct (timestamps_parse_or_not data) as [Hall|Hbad].
  - rewrite (preprocess_ok data Hne Hall) in Hdf. injection Hdf as <-.
    unfold len. rewrite length_map.
    rewrite (Permutation_length (sort_index_perm _)). now rewrite length_map.
  - rewrite (preprocess_value_error data) in Hdf by now right. discriminate.
Qed.

End PreprocessMore.


(** X2.  Invariants of the preprocessor: the returned frame has one row per
    candle of the request, its rows are the candles with their derived
    columns (in some order), and it is sorted by ascending timestamp. *)
Theorem preprocess_sorted_permutation
    {F : Type} {N : Number F} (to_datetime : string -> option Z)
    (data : list (CandleDataInput.t F)) (df : DataFrame F) :
  preprocess_data_from_json to_datetime data = Ok df ->
  len df = len data
  /\ Permutation df
       (map (fun c => candle_metrics (timestamp_key to_datetime c) c) data)
  /\ StronglySorted (fun a b => index a <= index b) df.
Proof.
  intros Hdf. split; [now apply (preprocess_len to_datetime)|].
  destruct (timestamps_parse_or_not to_datetime data) as [Hall|Hbad].
  2:{ rewrite (preprocess_value_error to_datetime data) in Hdf by now right.
      discriminate. }
  assert (Hne : data <> []) by (intros ->; discriminate Hdf).
  rewrite (preprocess_ok to_datetime data Hne Hall) in Hdf.
  injection Hdf as <-.
  set (keyed := map (fun c => (timestamp_key to_datetime c, c)) data).
  split.
  - rewrite (Permutation_map _ (sort_index_perm keyed)).
    unfold keyed. rewrite map_map. reflexivity.
  - pose proof (sort_index_sorted keyed) as Hs.
    induction Hs as [|a l Hl IH Hall']; simpl; constructor; [assumption|].
    rewrite Forall_map. eapply Forall_impl; [|exact Hall'].
    intros b Hb. exact Hb.
Qed.

(** X3.  "Limit Catch Entry" is answered exactly when a range is detected,
    the latest close is in its entry zone and the candles before the range
    show no impulse; the reason then consists of the range details and the
    entry-zone remark. *)
Theorem limit_catch_exactly_when_setup
    {F : Type} {N : Number F}
    (rcfg : RangeConfig F) (icfg : ImpulseConfig F) (tcfg : TrendConfig F)
    (df : DataFrame F) (reason : list (Reason F)) :
  analyze_data rcfg icfg tcfg df = Ok (LIMIT_CATCH_ENTRY, reason)
  <-> exists r last_close,
        detect_range rcfg df = Ok (Some r)
        /\ iloc (col close df) (-1) = Ok last_close
        /\ limit_catch_setup rcfg icfg df r last_close
        /\ reason = [RangeDetected (Range.low r) (Range.high r) (Range.width_pct r);
                     EntryZoneNoPriorImpulse].
Proof.
  split.
  - intros H.
    apply analyze_data_inv in H
      as (found & c & Hr & Hc & [(r & -> & Hsetup & _ & ->)|(_ & t & b & i & _ & _ & H)]).
    + exists r, c. repeat split; try assumption; apply Hsetup.
    + destruct H as [(_ & _ & _ & Hl & _)|(_ & Hl & _)]; discriminate.
  - intros (r & c & Hr & Hc & [Hz Hp] & ->).
    now apply (analyze_data_limit_catch rcfg icfg tcfg df r c).
Qed.

(** X4.  "In-Price Entry" is answered exactly when step 1 falls through (no
    range, or the latest close outside the entry zone, or an impulse before
    the range) and the series has a trend with break-of-structure and no
    current impulse. *)
Theorem in_price_exactly_when_setup
    {F : Type} {N : Number F}
    (rcfg : RangeConfig F) (icfg : ImpulseConfig F) (tcfg : TrendConfig F)
    (df : DataFrame F) (reason : list (Reason F)) :
  analyze_data rcfg icfg tcfg df = Ok (IN_PRICE_ENTRY, reason)
  <-> exists found last_close trend,
        detect_range rcfg df = Ok found
        /\ iloc (col close df) (-1) = Ok last_close
        /\ limit_catch_missed rcfg icfg df found last_close
        /\ detect_trend_and_bos tcfg df = Ok (Some trend, true)
        /\ check_recent_impulse icfg df = Ok false
        /\ reason = step1_reason found
                    ++ [TrendBosImpulse (Some trend) true false; TrendWithBos].
Proof.
  split.
  - intros H.
    apply analyze_data_inv in H
      as (found & c & Hr & Hc & [(r & _ & _ & Hl & _)|(Hmiss & t & b & i & Ht & Hi & H)]);
      [discriminate|].
    destruct H as [(Hsome & -> & -> & _ & ->)|(_ & Hl & _)]; [|discriminate].
    destruct t as [trend|]; [|congruence].
    exists found, c, trend. repeat split; assumption.
  - intros (found & c & trend & Hr & Hc & Hmiss & Ht & Hi & ->).
    now apply (analyze_data_in_price rcfg icfg tcfg df found c trend).
Qed.

(** X5.  Output contract of [analyze_data]: the label is one of the three
    strategy names, and the reason starts with the range details when a
    range was detected and always holds at least one more fragment, so it
    is never empty. *)
Theorem analyze_data_output_contract
    {F : Type} {N : Number F}
    (rcfg : RangeConfig F) (icfg : ImpulseConfig F) (tcfg : TrendConfig F)
    (df : DataFrame F) (label : string) (reason : list (Reason F)) :
  analyze_data rcfg icfg tcfg df = Ok (label, reason) ->
  (label = LIMIT_CATCH_ENTRY \/ label = IN_PRICE_ENTRY \/ label = NO_ENTRY)
  /\ reason <> []
  /\ exists found rest,
       detect_range rcfg df = Ok found
       /\ reason = step1_reason found ++ rest
       /\ rest <> [].
Proof.
  intros H.
  apply analyze_data_inv in H
    as (found & c & Hr & Hc & [(r & -> & _ & -> & ->)|(_ & t & b & i & _ & _ & H)]).
  - split; [now left|]. split; [discriminate|].
    exists (Some r), [EntryZoneNoPriorImpulse]. repeat split; [assumption|discriminate].
  - destruct H as [(_ & _ & _ & -> & ->)|(_ & -> & ->)].
    + split; [right; now left|]. split.
      * intros E. apply app_eq_nil in E as [_ E]. discriminate.
      * exists found, [TrendBosImpulse t b i; TrendWithBos].
        repeat split; [assumption|discriminate].
    + split; [right; now right|]. split.
      * intros E. apply app_eq_nil in E as [_ E]. discriminate.
      * exists found, [TrendBosImpulse t b i].
        repeat split; [assumption|discriminate].
Qed.

(** X6.  Error behaviour of [analyze_data]: with positive [min_candles],
    [min_candles_consecutive] and [TREND_LOOKBACK] it raises on the empty
    frame ([IndexError], from the latest close) and on no other frame. *)
Theorem analyze_data_raises_exactly_on_empty
    {F : Type} {N : Number F}
    (rcfg : RangeConfig F) (icfg : ImpulseConfig F) (tcfg : TrendConfig F)
    (df : DataFrame F) :
  1 <= min_candles rcfg ->
  1 <= min_candles_consecutive icfg ->
  1 <= TREND_LOOKBACK tcfg ->
  (df = [] -> analyze_data rcfg icfg tcfg df = Raise IndexError)
  /\ (df <> [] ->
      exists label reason, analyze_data rcfg icfg tcfg df = Ok (label, reason)).
Proof.
  intros Hr Hi Ht. split.
  - intros ->. unfold analyze_data.
    rewrite detect_range_short by (rewrite len_nil; lia).
    reflexivity.
  - intros Hne.
    destruct (analyze_data_total rcfg icfg tcfg df Hr Hi Ht Hne) as [[label reason] H].
    eauto.
Qed.

(* ================================================================== *)
(** ** The endpoint *)

Section EndpointFacts.

Context {F : Type} {N : Number F}.
Variable to_datetime : string -> option Z.
Variables (rcfg : RangeConfig F) (icfg : ImpulseConfig F) (tcfg : TrendConfig F).

(** A frame returned by the preprocessor is not empty. *)
Lemma preprocess_nonempty (data : list (CandleDataInput.t F)) (df : DataFrame F) :
  preprocess_data_from_json to_datetime data = Ok df -> df <> [].
Proof.
  intros Hdf. apply nonempty_of_len.
  rewrite (preprocess_len to_datetime data df Hdf).
  destruct data; [discriminate|]. unfold len. simpl. lia.
Qed.

(** The handler on a request the preprocessor accepts. *)
Lemma analyze_ohlc_returned (data : list (CandleDataInput.t F)) (df : DataFrame F) :
  1 <= min_candles rcfg -> 1 <= min_candles_consecutive icfg ->
  1 <= TREND_LOOKBACK tcfg ->
  preprocess_data_from_json to_datetime data = Ok df ->
  exists label reason,
    analyze_data rcfg icfg tcfg df = Ok (label, reason)
    /\ analyze_ohlc to_datetime rcfg icfg tcfg data
       = Returned {| AnalysisResult.strategy_suggestion := label;
                     AnalysisResult.reason := reason |}.
Proof.
  intros Hr Hi Ht Hdf.
  destruct (analyze_data_total rcfg icfg tcfg df Hr Hi Ht
              (preprocess_nonempty data df Hdf)) as [[label reason] Ha].
  exists label, reason. split; [assumption|].
  unfold analyze_ohlc. rewrite Hdf. simpl. now rewrite Ha.
Qed.

End EndpointFacts.


(* ================================================================== *)
(** ** Older candles: what the detectors look at *)

Section SliceAppend.

Context {A : Type}.

Lemma len_app (l1 l2 : list A) : len (l1 ++ l2) = len l1 + len l2.
Proof. unfold len. rewrite length_app. lia. Qed.

Lemma skipn_app_prefix (prefix l : list A) (a : Z) :
  0 <= a -> skipn (Z.to_nat (len prefix + a)) (prefix ++ l) = skipn (Z.to_nat a) l.
Proof.
  intros Ha. rewrite skipn_app.
  replace (Z.to_nat (len prefix + a) - List.length prefix)%nat with (Z.to_nat a)
    by (unfold len; lia).
  rewrite skipn_all2 by (unfold len; lia). reflexivity.
Qed.

(** The last [k] entries do not depend on what comes before them. *)
Lemma iloc_slice_trailing_app (prefix tail : list A) (k : Z) :
  1 <= k <= len tail ->
  iloc_slice (Some (- k)) None (prefix ++ tail) = iloc_slice (Some (- k)) None tail.
Proof.
  intros Hk. unfold iloc_slice. rewrite len_app.
  pose proof (len_nonneg prefix) as Hp.
  unfold slice_bound. destruct (Z.ltb_spec (- k) 0); [|lia].
  rewrite !Z.max_r by lia.
  replace (- k + (len prefix + len tail)) with (len prefix + (- k + len tail)) by lia.
  rewrite skipn_app_prefix by lia. f_equal. lia.
Qed.

(** Nor do the [k] entries before the last one. *)
Lemma iloc_slice_before_last_app (prefix tail : list A) (k : Z) :
  1 <= k -> k + 1 <= len tail ->
  iloc_slice (Some (- k - 1)) (Some (-1)) (prefix ++ tail)
  = iloc_slice (Some (- k - 1)) (Some (-1)) tail.
Proof.
  intros Hk Hlen. unfold iloc_slice. rewrite len_app.
  pose proof (len_nonneg prefix) as Hp.
  unfold slice_bound. change (-1 <? 0) with true. cbv iota.
  destruct (Z.ltb_spec (- k - 1) 0); [|lia].
  rewrite !Z.max_r by lia.
  replace (- k - 1 + (len prefix + len tail))
    with (len prefix + (- k - 1 + len tail)) by lia.
  rewrite skipn_app_prefix by lia. f_equal. lia.
Qed.

(** A window given by two positions moves with the series. *)
Lemma iloc_slice_shift_app (prefix l : list A) (a b : Z) :
  0 <= a -> 0 <= b ->
  iloc_slice (Some (len prefix + a)) (Some (len prefix + b)) (prefix ++ l)
  = iloc_slice (Some a) (Some b) l.
Proof.
  intros Ha Hb. unfold iloc_slice. rewrite len_app.
  pose proof (len_nonneg prefix) as Hp. pose proof (len_nonneg l) as Hl.
  unfold slice_bound.
  destruct (Z.ltb_spec (len prefix + a) 0); [lia|].
  destruct (Z.ltb_spec (len prefix + b) 0); [lia|].
  destruct (Z.ltb_spec a 0); [lia|].
  destruct (Z.ltb_spec b 0); [lia|].
  replace (Z.min (len prefix + a) (len prefix + len l))
    with (len prefix + Z.min a (len l)) by lia.
  replace (Z.min (len prefix + b) (len prefix + len l))
    with (len prefix + Z.min b (len l)) by lia.
  rewrite skipn_app_prefix by lia. f_equal. lia.
Qed.

Lemma last_app_nonempty (prefix tail : list A) (d : A) :
  tail <> [] -> last (prefix ++ tail) d = last tail d.
Proof.
  intros Hne. induction prefix as [|x prefix IH]; [reflexivity|].
  simpl. rewrite IH. destruct (prefix ++ tail) eqn:E; [|reflexivity].
  apply app_eq_nil in E as [_ E]. congruence.
Qed.

Lemma iloc_last_app (prefix tail : list A) :
  tail <> [] -> iloc (prefix ++ tail) (-1) = iloc tail (-1).
Proof.
  intros Hne. destruct tail as [|d tail']; [congruence|].
  rewrite (iloc_last (prefix ++ d :: tail') d).
  2:{ intros E. apply app_eq_nil in E as [_ E]. discriminate. }
  rewrite (iloc_last (d :: tail') d) by discriminate.
  now rewrite last_app_nonempty by discriminate.
Qed.

End SliceAppend.

Lemma for_return_ext {I R : Type} (body body' : I -> result (option R))
    (items : list I) :
  (forall i, In i items -> body i = body' i) ->
  for_return body items = for_return body' items.
Proof.
  induction items as [|i rest IH]; intros H; simpl; [reflexivity|].
  rewrite <- (H i) by now left.
  rewrite IH by (intros j Hj; apply H; now right). reflexivity.
Qed.

(** The iteration that returned, and the ones before it that did not. *)
Lemma for_return_some_split {I R : Type} (body : I -> result (option R))
    (items : list I) (r : R) :
  for_return body items = Ok (Some r) ->
  exists before i after,
    items = before ++ i :: after
    /\ (forall j, In j before -> body j = Ok None)
    /\ body i = Ok (Some r).
Proof.
  induction items as [|i rest IH]; simpl; [discriminate|].
  destruct (body i) as [[r'|]|e] eqn:E; intros H.
  - exists [], i, rest. repeat split; [intros j []|congruence].
  - destruct (IH H) as (before & k & after & -> & Hb & Hk).
    exists (i :: before), k, after. repeat split; [|assumption].
    intros j [<-|Hj]; [assumption|now apply Hb].
  - discriminate.
Qed.

Section Locality.

Context {F : Type} {N : Number F}.

Lemma col_app (name : Row F -> F) (l1 l2 : DataFrame F) :
  col name (l1 ++ l2) = col name l1 ++ col name l2.
Proof. unfold col. apply map_app. Qed.

Lemma col_nonempty (name : Row F -> F) (l : DataFrame F) :
  l <> [] -> col name l <> [].
Proof. destruct l; [congruence|discriminate]. Qed.

Lemma check_recent_impulse_at_app (cfg : ImpulseConfig F)
    (prefix tail : DataFrame F) (n : Z) :
  1 <= n <= len tail ->
  check_recent_impulse_at cfg (prefix ++ tail) n
  = check_recent_impulse_at cfg tail n.
Proof.
  intros Hn. unfold check_recent_impulse_at.
  rewrite len_app. pose proof (len_nonneg prefix).
  destruct (Z.ltb_spec (len prefix + len tail) n); [lia|].
  destruct (Z.ltb_spec (len tail) n); [lia|].
  now rewrite iloc_slice_trailing_app.
Qed.

Lemma window_at_app (cfg : RangeConfig F) (prefix df : DataFrame F) (s : Z) :
  1 <= min_candles cfg -> 0 <= s ->
  window_at cfg (prefix ++ df) (len prefix + s) = window_at cfg df s.
Proof.
  intros Hm Hs. unfold window_at.
  replace (len prefix + s + min_candles cfg)
    with (len prefix + (s + min_candles cfg)) by lia.
  apply iloc_slice_shift_app; lia.
Qed.

(** One iteration of the range scan on the longer series. *)
Lemma detect_range_at_app (cfg : RangeConfig F) (prefix df : DataFrame F) (s : Z) :
  1 <= min_candles cfg -> 0 <= s ->
  detect_range_at cfg (prefix ++ df) (len prefix + s)
  = match detect_range_at cfg df s with
    | Ok found => Ok (option_map (shift_range (len prefix)) found)
    | Raise e => Raise e
    end.
Proof.
  intros Hm Hs. unfold detect_range_at.
  fold (window_at cfg (prefix ++ df) (len prefix + s)). fold (window_at cfg df s).
  rewrite window_at_app by assumption.
  set (w := window_at cfg df s).
  repeat match goal with
         | |- context [if ?c then _ else _] => destruct c; simpl; try reflexivity
         end.
  destruct (iloc (col close w) (-1)) as [c|e]; simpl; [|reflexivity].
  destruct (_ && _); [|reflexivity].
  unfold shift_range. simpl. do 3 f_equal; lia.
Qed.

End Locality.

Lemma range_down_app (start mid stop : Z) :
  stop <= mid <= start ->
  range_down start stop = range_down start mid ++ range_down mid stop.
Proof.
  intros H. unfold range_down.
  replace (Z.to_nat (start - stop))
    with (Z.to_nat (start - mid) + Z.to_nat (mid - stop))%nat by lia.
  rewrite seq_app, map_app. f_equal.
  rewrite <- (map_id (seq (0 + Z.to_nat (start - mid)) _)) at 1.
  simpl (0 + _)%nat.
  replace (seq (Z.to_nat (start - mid)) (Z.to_nat (mid - stop)))
    with (map (fun k => (Z.to_nat (start - mid) + k)%nat)
              (seq 0 (Z.to_nat (mid - stop)))).
  - rewrite !map_map. apply map_ext. intros k. lia.
  - generalize (Z.to_nat (start - mid)) as n, (Z.to_nat (mid - stop)) as m.
    intros n m. revert n. induction m as [|m IH]; intros n; [reflexivity|].
    simpl. rewrite Nat.add_0_r. f_equal.
    rewrite <- seq_shift, map_map. rewrite <- (IH (S n)).
    apply map_ext. intros k. lia.
Qed.

Lemma range_down_shift (k a stop : Z) :
  range_down (k + a) (k + stop) = map (fun j => k + j) (range_down a stop).
Proof.
  unfold range_down. rewrite map_map.
  replace (k + a - (k + stop)) with (a - stop) by lia.
  apply map_ext. intros i. lia.
Qed.

(** A loop that returns keeps returning the same thing when its items are
    renamed along a map that the body follows, whatever comes after. *)
Lemma for_return_map_some {I R : Type} (body body' : I -> result (option R))
    (f : I -> I) (g : R -> R) (items rest : list I) (r : R) :
  (forall i, In i items ->
             body' (f i) = match body i with
                           | Ok found => Ok (option_map g found)
                           | Raise e => Raise e
                           end) ->
  for_return body items = Ok (Some r) ->
  for_return body' (map f items ++ rest) = Ok (Some (g r)).
Proof.
  induction items as [|i items' IH]; intros Hb; simpl; [discriminate|].
  rewrite (Hb i) by now left.
  destruct (body i) as [[r'|]|e]; simpl.
  - now intros [= ->].
  - apply IH. intros j Hj. apply Hb. now right.
  - discriminate.
Qed.

(** X8.  The impulse detector looks at the last [max_candles_total]
    candles only: candles before them do not change its answer. *)
Theorem check_recent_impulse_trailing_only
    {F : Type} {N : Number F} (cfg : ImpulseConfig F)
    (prefix tail : DataFrame F) :
  1 <= min_candles_consecutive cfg ->
  max_candles_total cfg <= len tail ->
  check_recent_impulse cfg (prefix ++ tail) = check_recent_impulse cfg tail.
Proof.
  intros Hmin Hmax. unfold check_recent_impulse.
  rewrite (for_return_ext (check_recent_impulse_at cfg (prefix ++ tail))
                          (check_recent_impulse_at cfg tail)); [reflexivity|].
  intros n Hn. apply range_up_ge in Hn.
  apply check_recent_impulse_at_app. lia.
Qed.

(** X9.  The trend detector looks at the last [TREND_LOOKBACK + 1] candles
    only: candles before them do not change the trend or the
    break-of-structure flag. *)
Theorem detect_trend_and_bos_trailing_only
    {F : Type} {N : Number F} (cfg : TrendConfig F)
    (prefix tail : DataFrame F) :
  1 <= TREND_LOOKBACK cfg ->
  TREND_LOOKBACK cfg + 1 <= len tail ->
  detect_trend_and_bos cfg (prefix ++ tail) = detect_trend_and_bos cfg tail.
Proof.
  intros Hlb Hlen. unfold detect_trend_and_bos.
  rewrite len_app. pose proof (len_nonneg prefix).
  destruct (Z.ltb_spec (len prefix + len tail) (TREND_LOOKBACK cfg + 1)); [lia|].
  destruct (Z.ltb_spec (len tail) (TREND_LOOKBACK cfg + 1)); [lia|].
  rewrite iloc_slice_before_last_app by lia.
  rewrite iloc_slice_trailing_app by lia.
  assert (Hne : tail <> []) by (apply nonempty_of_len; lia).
  rewrite !col_app.
  rewrite !iloc_last_app by now apply col_nonempty.
  reflexivity.
Qed.

(** X10.  Older history does not change the detected range: when a range is
    found in a series, the same range is found, at positions shifted by the
    number of added candles, in every series that extends it into the
    past. *)
Theorem detect_range_ignores_older_candles
    {F : Type} {N : Number F} (cfg : RangeConfig F)
    (prefix df : DataFrame F) (r : Range.t F) :
  1 <= min_candles cfg ->
  detect_range cfg df = Ok (Some r) ->
  detect_range cfg (prefix ++ df) = Ok (Some (shift_range (len prefix) r)).
Proof.
  intros Hm. unfold detect_range. rewrite len_app.
  pose proof (len_nonneg prefix) as Hp.
  destruct (Z.ltb_spec (len df) (min_candles cfg)); [discriminate|].
  destruct (Z.ltb_spec (len prefix + len df) (min_candles cfg)); [lia|].
  intros Hfound.
  rewrite (range_down_app (len prefix + len df - min_candles cfg)
                          (len prefix + -1) (-1)) by lia.
  replace (len prefix + len df - min_candles cfg)
    with (len prefix + (len df - min_candles cfg)) by lia.
  rewrite range_down_shift.
  apply (for_return_map_some (detect_range_at cfg df)); [|exact Hfound].
  intros s Hs. apply range_down_bounds in Hs.
  apply detect_range_at_app; lia.
Qed.

(* ================================================================== *)
(** ** Extremes: [max] and [min] of a series *)

Lemma SFkey_of_SFeqb_refl (s : spec_float) :
  SFeqb s s = true -> exists k, SFkey s = Some k.
Proof.
  unfold SFeqb. pose proof (SFcompare_key s s) as H.
  destruct (SFcompare s s) as [[]|]; try discriminate. intros _.
  destruct (SFkey s) as [k|]; [eauto|contradiction].
Qed.

Lemma SFeqb_refl_of_SFkey (s : spec_float) (k : Z * Z * Z) :
  SFkey s = Some k -> SFeqb s s = true.
Proof.
  intros Hk. unfold SFeqb. pose proof (SFcompare_key s s) as H.
  rewrite Hk in H. destruct k as [[a b] c].
  destruct (SFcompare s s) as [[]|]; try reflexivity; exfalso;
    unfold key_lt in *; try lia; exact H.
Qed.

Lemma key_le_SFleb (x y : spec_float) (kx ky : Z * Z * Z) :
  SFkey x = Some kx -> SFkey y = Some ky ->
  key_lt kx ky \/ kx = ky -> SFleb x y = true.
Proof.
  intros Hx Hy Hle. unfold SFleb. pose proof (SFcompare_key x y) as H.
  rewrite Hx, Hy in H.
  destruct kx as [[a1 b1] c1], ky as [[a2 b2] c2].
  destruct (SFcompare x y) as [[]|]; try reflexivity; exfalso.
  - destruct Hle as [Hlt|[= -> -> ->]]; unfold key_lt in *; lia.
  - exact H.
Qed.

Lemma key_trichotomy (k1 k2 : Z * Z * Z) :
  key_lt k1 k2 \/ k1 = k2 \/ key_lt k2 k1.
Proof.
  destruct k1 as [[a1 b1] c1], k2 as [[a2 b2] c2]. unfold key_lt.
  destruct (Z.lt_trichotomy a1 a2) as [?|[->|?]]; [lia| |lia].
  destruct (Z.lt_trichotomy b1 b2) as [?|[->|?]]; [lia| |lia].
  destruct (Z.lt_trichotomy c1 c2) as [?|[->|?]]; [lia| |lia].
  right. now left.
Qed.

Lemma binary64_notna_key (x : float) :
  PrimFloat.is_nan x = false -> exists k, SFkey (Prim2SF x) = Some k.
Proof.
  unfold PrimFloat.is_nan. rewrite negb_false_iff, FloatAxioms.eqb_spec.
  apply SFkey_of_SFeqb_refl.
Qed.

Lemma binary64_key_notna (x : float) (k : Z * Z * Z) :
  SFkey (Prim2SF x) = Some k -> PrimFloat.is_nan x = false.
Proof.
  intros Hk. unfold PrimFloat.is_nan.
  rewrite negb_false_iff, FloatAxioms.eqb_spec.
  now apply (SFeqb_refl_of_SFkey _ k).
Qed.

Lemma binary64_nan_laws : NaNOrderLaws binary64.
Proof.
  split; simpl.
  - reflexivity.
  - intros x Hx. destruct (binary64_notna_key x Hx) as [k Hk].
    rewrite FloatAxioms.leb_spec. apply (key_le_SFleb _ _ k k Hk Hk). now right.
  - intros x y. rewrite FloatAxioms.leb_spec. intros H.
    apply SFleb_key in H as (kx & ky & Hx & Hy & _).
    split; [now apply (binary64_key_notna x kx)|now apply (binary64_key_notna y ky)].
  - intros x y. rewrite FloatAxioms.ltb_spec, FloatAxioms.leb_spec. intros H.
    apply SFltb_key in H as (kx & ky & Hx & Hy & Hlt).
    apply (key_le_SFleb _ _ kx ky Hx Hy). now left.
  - intros x y Hx Hy. rewrite FloatAxioms.ltb_spec, FloatAxioms.leb_spec.
    destruct (binary64_notna_key x Hx) as [kx Hkx].
    destruct (binary64_notna_key y Hy) as [ky Hky].
    intros Hnlt. apply (key_le_SFleb _ _ ky kx Hky Hkx).
    destruct (key_trichotomy kx ky) as [Hlt|[->|Hgt]]; [|now right|now left].
    rewrite (key_lt_SFltb _ _ kx ky Hkx Hky Hlt) in Hnlt. discriminate.
  - intros x y z. rewrite !FloatAxioms.leb_spec. intros Hxy Hyz.
    apply SFleb_key in Hxy as (kx & ky & Hx & Hy & Hle1).
    apply SFleb_key in Hyz as (ky' & kz & Hy' & Hz & Hle2).
    rewrite Hy in Hy'. injection Hy' as <-.
    apply (key_le_SFleb _ _ kx kz Hx Hz).
    destruct kx as [[a1 b1] c1], ky as [[a2 b2] c2], kz as [[a3 b3] c3].
    destruct Hle1 as [H1|[= -> -> ->]], Hle2 as [H2|[= -> -> ->]];
      unfold key_lt in *; try (left; lia); auto.
  - intros x y z. rewrite FloatAxioms.leb_spec, !FloatAxioms.ltb_spec.
    intros Hxy Hyz.
    apply SFleb_key in Hxy as (kx & ky & Hx & Hy & Hle1).
    apply SFltb_key in Hyz as (ky' & kz & Hy' & Hz & Hlt).
    rewrite Hy in Hy'. injection Hy' as <-.
    apply (key_lt_SFltb _ _ kx kz Hx Hz).
    destruct kx as [[a1 b1] c1], ky as [[a2 b2] c2], kz as [[a3 b3] c3].
    destruct Hle1 as [H1|[= -> -> ->]]; unfold key_lt in *; lia.
Qed.

Lemma exact_nan_laws : NaNOrderLaws Exact.exact.
Proof.
  split; simpl.
  - reflexivity.
  - intros [x|]; [intros _|discriminate]. simpl.
    apply Qle_bool_iff, Qle_refl.
  - intros [x|] [y|]; simpl; try discriminate. now split.
  - intros [x|] [y|]; simpl; try discriminate.
    unfold Exact.qltb. rewrite negb_true_iff. intros H.
    apply Qle_bool_iff. apply Qlt_le_weak, Qnot_le_lt.
    rewrite <- Qle_bool_iff. congruence.
  - intros [x|] [y|]; simpl; try discriminate. intros _ _.
    unfold Exact.qltb. now rewrite negb_false_iff.
  - intros [x|] [y|] [z|]; simpl; try discriminate.
    rewrite !Qle_bool_iff. apply Qle_trans.
  - intros [x|] [y|] [z|]; simpl; try discriminate.
    unfold Exact.qltb. rewrite !negb_true_iff, Qle_bool_iff.
    intros Hxy Hyz. apply not_true_is_false. intros Hzx.
    apply Qle_bool_iff in Hzx.
    assert (Hzy : (z <= y)%Q) by (eapply Qle_trans; eassumption).
    apply Qle_bool_iff in Hzy. congruence.
Qed.

Section Extremes.

Context {F : Type} {N : Number F}.

Lemma In_dropna (s : list F) (x : F) :
  In x (dropna s) <-> In x s /\ isna x = false.
Proof.
  unfold dropna. rewrite filter_In. now rewrite negb_true_iff.
Qed.

Lemma fold_pick_in (pick : F -> F -> bool) (xs : list F) (x0 : F) :
  In (fold_left (fun m y => if pick m y then y else m) xs x0) (x0 :: xs).
Proof.
  revert x0. induction xs as [|y xs IH]; intros x0; simpl; [now left|].
  destruct (IH (if pick x0 y then y else x0)) as [H|H].
  - destruct (pick x0 y); rewrite <- H; auto.
  - auto.
Qed.

(** The maximum and the minimum are entries of the series, unless every
    entry is NaN. *)
Lemma series_max_in (s : list F) : dropna s <> [] -> In (series_max s) (dropna s).
Proof.
  unfold series_max. destruct (dropna s) as [|x xs]; [congruence|]. intros _.
  apply (fold_pick_in (fun m y => m <? y)%num).
Qed.

Lemma series_min_in (s : list F) : dropna s <> [] -> In (series_min s) (dropna s).
Proof.
  unfold series_min. destruct (dropna s) as [|x xs]; [congruence|]. intros _.
  apply (fold_pick_in (fun m y => y <? m)%num).
Qed.

Variable laws : NaNOrderLaws N.

Lemma fold_max_upper (xs : list F) (x0 : F) :
  isna x0 = false -> (forall y, In y xs -> isna y = false) ->
  let r := fold_left (fun m y => if (m <? y)%num then y else m) xs x0 in
  (x0 <=? r)%num = true /\ forall y, In y xs -> (y <=? r)%num = true.
Proof.
  revert x0. induction xs as [|y xs IH]; intros x0 H0 Hxs; simpl.
  - split; [now apply (leb_refl N laws)|intros y []].
  - assert (Hy : isna y = false) by (apply Hxs; now left).
    set (m' := if (x0 <? y)%num then y else x0).
    assert (Hm' : isna m' = false) by (unfold m'; now destruct (x0 <? y)%num).
    assert (H0m : (x0 <=? m')%num = true).
    { unfold m'. destruct (x0 <? y)%num eqn:E.
      - now apply (ltb_leb N laws).
      - now apply (leb_refl N laws). }
    assert (Hym : (y <=? m')%num = true).
    { unfold m'. destruct (x0 <? y)%num eqn:E.
      - now apply (leb_refl N laws).
      - now apply (leb_total N laws). }
    destruct (IH m' Hm' (fun z Hz => Hxs z (or_intror Hz))) as [Hr Hall].
    split; [eapply (leb_trans N laws); eassumption|].
    intros z [<-|Hz]; [eapply (leb_trans N laws); eassumption|now apply Hall].
Qed.

Lemma fold_min_lower (xs : list F) (x0 : F) :
  isna x0 = false -> (forall y, In y xs -> isna y = false) ->
  let r := fold_left (fun m y => if (y <? m)%num then y else m) xs x0 in
  (r <=? x0)%num = true /\ forall y, In y xs -> (r <=? y)%num = true.
Proof.
  revert x0. induction xs as [|y xs IH]; intros x0 H0 Hxs; simpl.
  - split; [now apply (leb_refl N laws)|intros y []].
  - assert (Hy : isna y = false) by (apply Hxs; now left).
    set (m' := if (y <? x0)%num then y else x0).
    assert (Hm' : isna m' = false) by (unfold m'; now destruct (y <? x0)%num).
    assert (H0m : (m' <=? x0)%num = true).
    { unfold m'. destruct (y <? x0)%num eqn:E.
      - now apply (ltb_leb N laws).
      - now apply (leb_refl N laws). }
    assert (Hym : (m' <=? y)%num = true).
    { unfold m'. destruct (y <? x0)%num eqn:E.
      - now apply (leb_refl N laws).
      - now apply (leb_total N laws). }
    destruct (IH m' Hm' (fun z Hz => Hxs z (or_intror Hz))) as [Hr Hall].
    split; [eapply (leb_trans N laws); eassumption|].
    intros z [<-|Hz]; [eapply (leb_trans N laws); eassumption|now apply Hall].
Qed.

(** No entry of a series exceeds its maximum or is below its minimum. *)
Lemma series_max_upper (s : list F) (x : F) :
  In x s -> isna x = false -> (x <=? series_max s)%num = true.
Proof.
  intros Hin Hx.
  assert (Hd : In x (dropna s)) by now apply In_dropna.
  unfold series_max. destruct (dropna s) as [|x0 xs] eqn:E; [destruct Hd|].
  assert (Hall : forall y, In y (x0 :: xs) -> isna y = false).
  { intros y Hy. rewrite <- E in Hy. now apply In_dropna in Hy. }
  destruct (fold_max_upper xs x0 (Hall x0 (or_introl eq_refl))
              (fun y Hy => Hall y (or_intror Hy))) as [H0 Hrest].
  destruct Hd as [<-|Hd]; [exact H0|now apply Hrest].
Qed.

Lemma series_min_lower (s : list F) (x : F) :
  In x s -> isna x = false -> (series_min s <=? x)%num = true.
Proof.
  intros Hin Hx.
  assert (Hd : In x (dropna s)) by now apply In_dropna.
  unfold series_min. destruct (dropna s) as [|x0 xs] eqn:E; [destruct Hd|].
  assert (Hall : forall y, In y (x0 :: xs) -> isna y = false).
  { intros y Hy. rewrite <- E in Hy. now apply In_dropna in Hy. }
  destruct (fold_min_lower xs x0 (Hall x0 (or_introl eq_refl))
              (fun y Hy => Hall y (or_intror Hy))) as [H0 Hrest].
  destruct Hd as [<-|Hd]; [exact H0|now apply Hrest].
Qed.

(** An extreme that is not NaN is attained. *)
Lemma series_max_attained (s : list F) :
  isna (series_max s) = false -> In (series_max s) s.
Proof.
  intros Hna. destruct (dropna s) as [|x xs] eqn:E.
  - unfold series_max in Hna. rewrite E in Hna.
    rewrite (nan_isna N laws) in Hna. discriminate.
  - apply (In_dropna s). apply series_max_in. congruence.
Qed.

Lemma series_min_attained (s : list F) :
  isna (series_min s) = false -> In (series_min s) s.
Proof.
  intros Hna. destruct (dropna s) as [|x xs] eqn:E.
  - unfold series_min in Hna. rewrite E in Hna.
    rewrite (nan_isna N laws) in Hna. discriminate.
  - apply (In_dropna s). apply series_min_in. congruence.
Qed.

End Extremes.

(* ================================================================== *)
(** ** More on the range and trend detectors *)

Lemma In_iloc_slice {A : Type} (lo hi : option Z) (l : list A) (x : A) :
  In x (iloc_slice lo hi l) -> In x l.
Proof.
  unfold iloc_slice.
  generalize (Z.to_nat
                (match hi with Some i => slice_bound (len l) i | None => len l end
                 - match lo with Some i => slice_bound (len l) i | None => 0 end))
    as n.
  generalize (Z.to_nat match lo with Some i => slice_bound (len l) i | None => 0 end)
    as a.
  intros a n H.
  rewrite <- (firstn_skipn a l). apply in_or_app. right.
  rewrite <- (firstn_skipn n (skipn a l)). apply in_or_app. now left.
Qed.

(** What the trend detector has checked when it reports a break of
    structure. *)
Lemma detect_trend_and_bos_bos_inv
    {F : Type} {N : Number F} (cfg : TrendConfig F) (df : DataFrame F)
    (trend : Trend) :
  detect_trend_and_bos cfg df = Ok (Some trend, true) ->
  let lookback_data :=
    iloc_slice (Some (- TREND_LOOKBACK cfg - 1)) (Some (-1)) df in
  match trend with
  | uptrend =>
      exists last_high,
        iloc (col high df) (-1) = Ok last_high
        /\ (series_max (col high lookback_data) <? last_high)%num = true
  | downtrend =>
      exists last_low,
        iloc (col low df) (-1) = Ok last_low
        /\ (last_low <? series_min (col low lookback_data))%num = true
  end.
Proof.
  unfold detect_trend_and_bos.
  destruct (len df <? TREND_LOOKBACK cfg + 1); [discriminate|].
  destruct (iloc _ (-1)) as [rc|]; simpl; [|discriminate].
  destruct (iloc _ 0) as [fc|]; simpl; [|discriminate].
  destruct (_ <? _)%num.
  - destruct (iloc (col high df) (-1)) as [lh|]; simpl; [|discriminate].
    intros [= <- Hb]. exists lh. now split.
  - destruct (_ <? _)%num; [|discriminate].
    destruct (iloc (col low df) (-1)) as [ll|]; simpl; [|discriminate].
    intros [= <- Hb]. exists ll. now split.
Qed.

(** X11.  Positions of a detected range, for a positive [min_candles]: the
    window lies inside the series ([0 <= start_index <= end_index < len]),
    it spans exactly [min_candles] candles, its high and low are the
    extremes of those candles, and its high is a number (not NaN) that is
    not below or equal to its low. *)
Theorem detect_range_window_inside_series
    {F : Type} {N : Number F} (cfg : RangeConfig F) (df : DataFrame F)
    (r : Range.t F) :
  1 <= min_candles cfg ->
  detect_range cfg df = Ok (Some r) ->
  0 <= Range.start_index r <= Range.end_index r
  /\ Range.end_index r < len df
  /\ Range.end_index r - Range.start_index r + 1 = min_candles cfg
  /\ len (window_at cfg df (Range.start_index r)) = min_candles cfg
  /\ Range.high r = series_max (col high (window_at cfg df (Range.start_index r)))
  /\ Range.low r = series_min (col low (window_at cfg df (Range.start_index r)))
  /\ isna (Range.high r) = false
  /\ (Range.high r <=? Range.low r)%num = false.
Proof.
  intros Hm H. apply detect_range_some in H as (s & Hs & Hq & ->).
  unfold qualifies in Hq.
  apply andb_prop in Hq as [Hq _]. apply andb_prop in Hq as [Hq _].
  apply andb_prop in Hq as [Hx _]. unfold extremes_ok in Hx.
  apply andb_prop in Hx as [Hna Hle].
  apply negb_true_iff in Hna. apply negb_true_iff in Hle.
  simpl. repeat split; try lia; try assumption.
  apply len_window_at; lia.
Qed.

(** X12.  The extremes of a detected range bound its window: in every
    arithmetic obeying [NaNOrderLaws] (binary64 included) no candle of the
    window has a high above the range's high or a low below the range's
    low (NaN entries apart), the high is the high of one of the window's
    candles, and so is the low unless it is NaN. *)
Theorem detect_range_extremes_bound_window
    {F : Type} {N : Number F} (laws : NaNOrderLaws N)
    (cfg : RangeConfig F) (df : DataFrame F) (r : Range.t F) :
  detect_range cfg df = Ok (Some r) ->
  let window := window_at cfg df (Range.start_index r) in
  (forall row, In row window -> In row df)
  /\ (forall row, In row window -> isna (high row) = false ->
                  (high row <=? Range.high r)%num = true)
  /\ (forall row, In row window -> isna (low row) = false ->
                  (Range.low r <=? low row)%num = true)
  /\ (exists row, In row window /\ high row = Range.high r)
  /\ (isna (Range.low r) = false ->
      exists row, In row window /\ low row = Range.low r).
Proof.
  intros H. apply detect_range_some in H as (s & Hs & Hq & ->).
  unfold qualifies in Hq.
  apply andb_prop in Hq as [Hq _]. apply andb_prop in Hq as [Hq _].
  apply andb_prop in Hq as [Hx _]. unfold extremes_ok in Hx.
  apply andb_prop in Hx as [Hna _]. apply negb_true_iff in Hna.
  simpl. set (w := window_at cfg df s) in *.
  split; [|split; [|split; [|split]]].
  - intros row Hrow. unfold w, window_at in Hrow.
    now apply In_iloc_slice in Hrow.
  - intros row Hrow Hrna. apply (series_max_upper laws); [|assumption].
    unfold col. now apply in_map.
  - intros row Hrow Hrna. apply (series_min_lower laws); [|assumption].
    unfold col. now apply in_map.
  - pose proof (series_max_attained laws (col high w) Hna) as Hin.
    unfold col in Hin. apply in_map_iff in Hin as (row & Hrow & Hin).
    exists row. now split.
  - intros Hlna.
    pose proof (series_min_attained laws (col low w) Hlna) as Hin.
    unfold col in Hin. apply in_map_iff in Hin as (row & Hrow & Hin).
    exists row. now split.
Qed.

(** X13.  What a break of structure means: in every arithmetic obeying
    [OrderLaws] and [NaNOrderLaws] (binary64 included), when the detector
    reports an uptrend with break-of-structure, the high of the latest
    candle is above the high of each of the [TREND_LOOKBACK] candles before
    it; when it reports a downtrend with break-of-structure, the low of the
    latest candle is below each of their lows (NaN entries apart). *)
Theorem break_of_structure_beats_every_prior_candle
    {F : Type} {N : Number F} (laws : OrderLaws N) (nan_laws : NaNOrderLaws N)
    (cfg : TrendConfig F) (df : DataFrame F) (trend : Trend) :
  detect_trend_and_bos cfg df = Ok (Some trend, true) ->
  let prior := iloc_slice (Some (- TREND_LOOKBACK cfg - 1)) (Some (-1)) df in
  match trend with
  | uptrend =>
      exists last_high,
        iloc (col high df) (-1) = Ok last_high
        /\ forall row, In row prior -> isna (high row) = false ->
                       (high row <? last_high)%num = true
  | downtrend =>
      exists last_low,
        iloc (col low df) (-1) = Ok last_low
        /\ forall row, In row prior -> isna (low row) = false ->
                       (last_low <? low row)%num = true
  end.
Proof.
  intros H. apply detect_trend_and_bos_bos_inv in H.
  destruct trend; simpl in *.
  - destruct H as (lh & Hlh & Hlt). exists lh. split; [assumption|].
    intros row Hrow Hna.
    apply (leb_ltb_trans N nan_laws _ _ _
             (series_max_upper nan_laws _ (high row) (in_map high _ _ Hrow) Hna)
             Hlt).
  - destruct H as (ll & Hll & Hlt). exists ll. split; [assumption|].
    intros row Hrow Hna.
    apply (ltb_leb_trans N laws _ _ _ Hlt).
    apply (series_min_lower nan_laws); [|assumption].
    unfold col. now apply in_map.
Qed.

(* ================================================================== *)
(** ** Geometry of the entry zone in exact arithmetic *)

Lemma Qle_bool_ext (a b c d : Q) :
  ((a <= b)%Q <-> (c <= d)%Q) -> Qle_bool a b = Qle_bool c d.
Proof.
  intros H. apply eq_true_iff_eq. now rewrite !Qle_bool_iff.
Qed.

Lemma exact_share (mp : Q) :
  ((inject_Z 100 - mp) / inject_Z 2 / inject_Z 100 == (100 - mp) * (1 # 200))%Q.
Proof.
  change (inject_Z 100) with 100%Q. change (inject_Z 2) with 2%Q. field.
Qed.

(** The zone test on four numbers, as an arithmetic statement. *)
Lemma exact_zone_iff (p l h mp : Q) :
  check_price_near_extreme (Some p) (Some l) (Some h) (Some mp) = true
  <-> (0 < h - l
       /\ (p < l + (h - l) * ((100 - mp) * (1 # 200))
           \/ h - (h - l) * ((100 - mp) * (1 # 200)) < p))%Q.
Proof.
  unfold check_price_near_extreme. simpl.
  change (inject_Z 0) with 0%Q.
  destruct (Qle_bool (h - l) 0) eqn:Ew.
  - apply Qle_bool_iff in Ew. split; [discriminate|].
    intros [Hw _]. exfalso. apply (Qlt_not_le _ _ Hw Ew).
  - assert (Hw : (0 < h - l)%Q).
    { apply Qnot_le_lt. rewrite <- Qle_bool_iff. congruence. }
    unfold Exact.qltb. rewrite orb_true_iff, !negb_true_iff.
    rewrite (Qle_bool_ext _ p (l + (h - l) * ((100 - mp) * (1 # 200))) p)
      by now rewrite exact_share.
    rewrite (Qle_bool_ext p _ p (h - (h - l) * ((100 - mp) * (1 # 200))))
      by now rewrite exact_share.
    split.
    + intros [H|H]; (split; [assumption|]); [left|right];
        apply Qnot_le_lt; rewrite <- Qle_bool_iff; congruence.
    + intros [_ [H|H]]; [left|right]; apply not_true_is_false;
        rewrite Qle_bool_iff; now apply Qlt_not_le.
Qed.

(** An undefined argument is never in the zone. *)
Lemma exact_zone_none (p l h mp : Exact.num) :
  p = None \/ l = None \/ h = None \/ mp = None ->
  check_price_near_extreme p l h mp = false.
Proof.
  unfold check_price_near_extreme. intros H.
  destruct p as [p|], l as [l|], h as [h|], mp as [mp|];
    simpl; try reflexivity;
    try (destruct (Qle_bool _ _); reflexivity).
  destruct H as [H|[H|[H|H]]]; discriminate.
Qed.




(* ================================================================== *)
(** ** NaN in the entry-zone test *)

Lemma SFkey_none (s : spec_float) : SFkey s = None <-> s = S754_nan.
Proof.
  destruct s as [sg|sg| |sg m e]; try destruct sg; simpl;
    split; intros H; congruence.
Qed.

Lemma binary64_isna_spec (x : float) :
  PrimFloat.is_nan x = true <-> Prim2SF x = S754_nan.
Proof.
  split.
  - intros H. apply SFkey_none.
    destruct (SFkey (Prim2SF x)) as [k|] eqn:E; [|reflexivity].
    rewrite (binary64_key_notna x k E) in H. discriminate.
  - intros H. unfold PrimFloat.is_nan.
    rewrite FloatAxioms.eqb_spec, H. reflexivity.
Qed.

Lemma binary64_notna_operands (x y z : float) :
  (Prim2SF x = S754_nan \/ Prim2SF y = S754_nan -> Prim2SF z = S754_nan) ->
  PrimFloat.is_nan z = false ->
  PrimFloat.is_nan x = false /\ PrimFloat.is_nan y = false.
Proof.
  intros Hprop Hz.
  split; apply not_true_is_false; intros H; apply binary64_isna_spec in H;
    [assert (Hn := Hprop (or_introl H))|assert (Hn := Hprop (or_intror H))];
    apply binary64_isna_spec in Hn; congruence.
Qed.

Lemma binary64_arith_laws : NaNArithLaws binary64.
Proof.
  split; simpl; [reflexivity|..]; intros x y; apply binary64_notna_operands.
  - rewrite FloatAxioms.add_spec. intros [-> | ->]; [reflexivity|].
    now destruct (Prim2SF x).
  - rewrite FloatAxioms.sub_spec. intros [-> | ->]; [reflexivity|].
    now destruct (Prim2SF x).
  - rewrite FloatAxioms.mul_spec. intros [-> | ->]; [reflexivity|].
    now destruct (Prim2SF x).
  - rewrite FloatAxioms.div_spec. intros [-> | ->]; [reflexivity|].
    now destruct (Prim2SF x).
Qed.

Lemma exact_arith_laws : NaNArithLaws Exact.exact.
Proof.
  split; simpl; [reflexivity|..];
    intros [x|] [y|]; simpl; try discriminate; now split.
Qed.

Section ZoneNaN.

Context {F : Type} {N : Number F}.
Variables (nan_laws : NaNOrderLaws N) (arith_laws : NaNArithLaws N).

Lemma ltb_notna (x y : F) :
  (x <? y)%num = true -> isna x = false /\ isna y = false.
Proof.
  intros H. apply (leb_notna N nan_laws). now apply (ltb_leb N nan_laws).
Qed.

(** A bound [base +/- width * share] that is a number. *)
Lemma band_notna (base width midrange_pct : F) :
  isna (base + width * (($100 - midrange_pct) / $2 / $100))%num = false
  \/ isna (base - width * (($100 - midrange_pct) / $2 / $100))%num = false ->
  isna base = false /\ isna width = false /\ isna midrange_pct = false.
Proof.
  intros H.
  assert (Hparts : isna base = false
                   /\ isna (width * (($100 - midrange_pct) / $2 / $100))%num
                      = false).
  { destruct H as [H|H];
      [apply (add_notna N arith_laws) in H|apply (sub_notna N arith_laws) in H];
      exact H. }
  destruct Hparts as [Hbase Hprod].
  apply (mul_notna N arith_laws) in Hprod as [Hw Hk].
  apply (div_notna N arith_laws) in Hk as [Hk _].
  apply (div_notna N arith_laws) in Hk as [Hk _].
  apply (sub_notna N arith_laws) in Hk as [_ Hmp].
  auto.
Qed.

End ZoneNaN.

(** Everything the zone test has established when it answers [True]. *)
Lemma check_price_near_extreme_true_inv
    {F : Type} {N : Number F}
    (nan_laws : NaNOrderLaws N) (arith_laws : NaNArithLaws N)
    (price range_low range_high midrange_pct : F) :
  check_price_near_extreme price range_low range_high midrange_pct = true ->
  isna price = false
  /\ isna range_low = false
  /\ isna range_high = false
  /\ isna midrange_pct = false
  /\ ($0 <? range_high - range_low)%num = true.
Proof.
  unfold check_price_near_extreme.
  destruct (range_high - range_low <=? $0)%num eqn:Ew; [discriminate|].
  intros H. apply orb_true_iff in H.
  assert (Hfacts : isna price = false
                   /\ isna (range_high - range_low)%num = false
                   /\ isna midrange_pct = false).
  { destruct H as [H|H]; apply (ltb_notna nan_laws) in H as [H1 H2].
    - destruct (band_notna arith_laws _ _ _ (or_introl H2)) as (Hb & Hw & Hmp).
      auto.
    - destruct (band_notna arith_laws _ _ _ (or_intror H1)) as (Hb & Hw & Hmp).
      auto. }
  destruct Hfacts as (Hp & Hw & Hmp).
  destruct (sub_notna N arith_laws _ _ Hw) as [Hh Hl].
  repeat split; try assumption.
  destruct ($0 <? range_high - range_low)%num eqn:E; [reflexivity|].
  exfalso.
  pose proof (zero_notna N arith_laws) as H0.
  pose proof (leb_total N nan_laws _ _ H0 Hw E) as Hle.
  congruence.
Qed.

(** X17.  The entry zone needs numbers: in every arithmetic obeying
    [NaNOrderLaws] and [NaNArithLaws] (binary64 included), a price is in the
    zone only if the price, the low, the high and [midrange_pct] are all
    numbers (none is NaN) and the width [high - low] is positive; hence
    "Limit Catch Entry" is only answered for a latest close that is a
    number and a range of positive width. *)
Theorem entry_zone_only_for_numbers
    {F : Type} {N : Number F}
    (nan_laws : NaNOrderLaws N) (arith_laws : NaNArithLaws N) :
  (forall price range_low range_high midrange_pct : F,
      check_price_near_extreme price range_low range_high midrange_pct = true ->
      isna price = false
      /\ isna range_low = false
      /\ isna range_high = false
      /\ isna midrange_pct = false
      /\ ($0 <? range_high - range_low)%num = true)
  /\ (forall (rcfg : RangeConfig F) (icfg : ImpulseConfig F) (tcfg : TrendConfig F)
             (df : DataFrame F) (reason : list (Reason F)),
        analyze_data rcfg icfg tcfg df = Ok (LIMIT_CATCH_ENTRY, reason) ->
        exists r last_close,
          detect_range rcfg df = Ok (Some r)
          /\ iloc (col close df) (-1) = Ok last_close
          /\ isna last_close = false
          /\ ($0 <? Range.high r - Range.low r)%num = true).
Proof.
  split.
  - intros price range_low range_high midrange_pct.
    now apply check_price_near_extreme_true_inv.
  - intros rcfg icfg tcfg df reason H.
    apply analyze_data_inv in H
      as (found & c & Hr & Hc & [(r & -> & [Hz _] & _)|(_ & t & b & i & _ & _ & H)]).
    + exists r, c.
      destruct (check_price_near_extreme_true_inv nan_laws arith_laws _ _ _ _ Hz)
        as (Hp & _ & _ & _ & Hw).
      repeat split; assumption.
    + destruct H as [(_ & _ & _ & Hl & _)|(_ & Hl & _)]; discriminate.
Qed.

(* ================================================================== *)
(** ** The two closes the trend is computed from *)

Section SlicePositions.

Context {A : Type}.

Lemma iloc_trailing_last (l : list A) (k : Z) :
  1 <= k <= len l ->
  iloc (iloc_slice (Some (- k)) None l) (-1) = iloc l (-1).
Proof.
  intros Hk. unfold iloc_slice, slice_bound.
  destruct (Z.ltb_spec (- k) 0); [|lia].
  rewrite Z.max_r by lia.
  set (a := Z.to_nat (- k + len l)).
  rewrite firstn_all2 by (rewrite length_skipn; unfold a, len in *; lia).
  rewrite <- (firstn_skipn a l) at 2.
  symmetry. apply iloc_last_app.
  intros E. apply (f_equal (@List.length A)) in E.
  rewrite length_skipn in E. simpl in E. unfold a, len in *. lia.
Qed.

Lemma iloc_before_last_first (l : list A) (k : Z) :
  1 <= k -> k + 1 <= len l ->
  iloc (iloc_slice (Some (- k - 1)) (Some (-1)) l) 0 = iloc l (- k - 1).
Proof.
  intros Hk Hlen.
  assert (Hslice : len (iloc_slice (Some (- k - 1)) (Some (-1)) l) = k).
  { unfold slice_bound.
    rewrite len_iloc_slice; unfold slice_bound;
      change (-1 <? 0) with true; cbv iota;
      destruct (Z.ltb_spec (- k - 1) 0); lia. }
  unfold iloc at 1. rewrite Hslice.
  change (0 <? 0) with false. cbv iota.
  destruct (Z.leb_spec k 0); [lia|]. simpl orb. cbv iota.
  unfold iloc.
  destruct (Z.ltb_spec (- k - 1) 0); [|lia].
  destruct (Z.ltb_spec (- k - 1 + len l) 0); [lia|].
  destruct (Z.leb_spec (len l) (- k - 1 + len l)); [lia|]. simpl orb. cbv iota.
  unfold iloc_slice, slice_bound.
  change (-1 <? 0) with true. cbv iota.
  destruct (Z.ltb_spec (- k - 1) 0); [|lia].
  rewrite !Z.max_r by lia.
  rewrite nth_error_firstn, nth_error_skipn.
  replace (Z.to_nat 0) with 0%nat by reflexivity.
  destruct (Nat.ltb_spec 0 (Z.to_nat (-1 + len l - (- k - 1 + len l)))); [|lia].
  now rewrite Nat.add_0_r.
Qed.

End SlicePositions.

Section TrendInputs.

Context {F : Type} {N : Number F}.

Lemma col_iloc_slice (name : Row F -> F) (lo hi : option Z) (df : DataFrame F) :
  col name (iloc_slice lo hi df) = iloc_slice lo hi (col name df).
Proof.
  unfold col, iloc_slice. rewrite len_map, skipn_map, firstn_map. reflexivity.
Qed.

(** The trend is the classification of the change from the close
    [TREND_LOOKBACK + 1] candles back to the latest close. *)
Lemma detect_trend_and_bos_classifies (cfg : TrendConfig F) (df : DataFrame F)
    (latest reference : F) :
  1 <= TREND_LOOKBACK cfg -> TREND_LOOKBACK cfg + 1 <= len df ->
  iloc (col close df) (-1) = Ok latest ->
  iloc (col close df) (- TREND_LOOKBACK cfg - 1) = Ok reference ->
  exists bos,
    detect_trend_and_bos cfg df
    = Ok (classify_trend cfg (price_change_pct latest reference), bos).
Proof.
  intros Hlb Hlen Hlatest Href. unfold detect_trend_and_bos.
  destruct (Z.ltb_spec (len df) (TREND_LOOKBACK cfg + 1)); [lia|].
  rewrite !col_iloc_slice.
  rewrite iloc_trailing_last by (unfold col; rewrite len_map; lia).
  rewrite iloc_before_last_first by (unfold col; rewrite ?len_map; lia).
  rewrite Hlatest, Href. simpl.
  unfold classify_trend, price_change_pct.
  destruct (iloc_in_bounds (col high df) (-1)) as [lh Hlh].
  { unfold col. rewrite len_map. lia. }
  destruct (iloc_in_bounds (col low df) (-1)) as [ll Hll].
  { unfold col. rewrite len_map. lia. }
  destruct (_ <? _)%num; [rewrite Hlh; simpl; eauto|].
  destruct (_ <? _)%num; [rewrite Hll; simpl; eauto|eauto].
Qed.

(** A reported trend comes from a series long enough to have one. *)
Lemma detect_trend_and_bos_some_len (cfg : TrendConfig F) (df : DataFrame F)
    (trend : Trend) (bos : bool) :
  detect_trend_and_bos cfg df = Ok (Some trend, bos) ->
  TREND_LOOKBACK cfg + 1 <= len df.
Proof.
  unfold detect_trend_and_bos.
  destruct (Z.ltb_spec (len df) (TREND_LOOKBACK cfg + 1)); [discriminate|].
  intros _. lia.
Qed.

End TrendInputs.

(** In exact arithmetic the sign of the percentage change from a positive
    reference is the sign of the move. *)
Lemma exact_pct_sign (c f : Q) :
  (0 < f)%Q ->
  ((0 < (c - f) / f * 100 -> f < c) /\ ((c - f) / f * 100 < 0 -> c < f))%Q.
Proof.
  intros Hf.
  assert (Hq : ((c - f) / f * f == c - f)%Q).
  { field. intros E. rewrite E in Hf. now apply Qlt_irrefl in Hf. }
  set (q := ((c - f) / f)%Q) in *.
  split; intros H.
  - assert (Hpos : (0 < q)%Q) by lra.
    assert (Hprod : (0 < q * f)%Q) by now apply Qmult_lt_0_compat.
    lra.
  - assert (Hneg : (0 < - q)%Q) by lra.
    assert (Hprod : (0 < - q * f)%Q) by now apply Qmult_lt_0_compat.
    assert (Hopp : (- q * f == - (q * f))%Q) by ring.
    lra.
Qed.


(** With a reference close of zero, binary64 division yields an infinity
    (or NaN for 0/0), and the classification follows the latest close. *)
Lemma binary64_classify_zero_reference (cfg : TrendConfig float) (latest : float) :
  (TREND_THRESHOLD_PCT cfg <? infinity)%float = true ->
  classify_trend cfg (price_change_pct latest 0%float)
  = if (0 <? latest)%float then Some uptrend
    else if (latest <? 0)%float then Some downtrend
    else None.
Proof.
  unfold classify_trend, price_change_pct. simpl.
  change (float_of_Z 100) with 100%float.
  rewrite !FloatAxioms.ltb_spec, FloatAxioms.opp_spec, FloatAxioms.mul_spec,
    FloatAxioms.div_spec, FloatAxioms.sub_spec.
  change (Prim2SF 0%float) with (S754_zero false).
  change (Prim2SF infinity) with (S754_infinity false).
  replace (Prim2SF 100%float) with (S754_finite false 7036874417766400 (-46))
    by (vm_compute; reflexivity).
  destruct (Prim2SF (TREND_THRESHOLD_PCT cfg)) as [st|st| |st mt et];
    try destruct st; try discriminate; intros _;
    destruct (Prim2SF latest) as [sl|sl| |sl ml el];
    try destruct sl; reflexivity.
Qed.


(* ================================================================== *)
(** ** What a detected impulse consists of *)

Section ImpulseInv.

Context {F : Type} {N : Number F}.

(** Everything one iteration has checked when it returns [True]. *)
Lemma check_recent_impulse_at_true_inv (cfg : ImpulseConfig F) (df : DataFrame F)
    (n : Z) :
  check_recent_impulse_at cfg df n = Ok (Some true) ->
  let subset := iloc_slice (Some (- n)) None df in
  n <= len df
  /\ exists start_price end_price,
       iloc (col open subset) 0 = Ok start_price
       /\ iloc (col close subset) (-1) = Ok end_price
       /\ (start_price =? $0)%num = false
       /\ (fabs ((end_price - start_price) / start_price) * $100
           <? min_total_pct_change cfg)%num = false
       /\ (series_mean (col body_ratio subset) <? min_body_pct cfg)%num = false
       /\ forallb (fun candle =>
                     ((close candle - open candle)
                      * sign (end_price - start_price) >=? $0)%num)
                  subset = true.
Proof.
  unfold check_recent_impulse_at.
  destruct (Z.ltb_spec (len df) n); [discriminate|].
  destruct (iloc _ 0) as [sp|]; [|discriminate].
  destruct (iloc _ (-1)) as [ep|]; [|discriminate].
  simpl.
  destruct (sp =? $0)%num eqn:Hz; [discriminate|].
  destruct (_ <? min_total_pct_change cfg)%num eqn:Hpct; [discriminate|].
  destruct (_ <? min_body_pct cfg)%num eqn:Hbody; [discriminate|].
  destruct (forallb _ _) eqn:Hall; [|discriminate].
  intros _. split; [lia|]. exists sp, ep.
  repeat (split; [solve [reflexivity | assumption]|]).
  solve [reflexivity | assumption].
Qed.

(** A detected impulse was detected at one of the candidate lengths. *)
Lemma check_recent_impulse_true_inv (cfg : ImpulseConfig F) (df : DataFrame F) :
  check_recent_impulse cfg df = Ok true ->
  exists n,
    min_candles_consecutive cfg <= n <= max_candles_total cfg
    /\ check_recent_impulse_at cfg df n = Ok (Some true).
Proof.
  unfold check_recent_impulse.
  destruct (for_return _ _) as [[b|]|] eqn:E; simpl; try discriminate.
  intros [= ->]. apply for_return_some in E as (n & Hn & Hat).
  apply range_up_ge in Hn. exists n. split; [lia|assumption].
Qed.

End ImpulseInv.

(** The direction test of one candle in exact arithmetic. *)
Lemma exact_direction_test (o c d : Exact.num) :
  ((c - o) * sign d >=? $0)%num = true ->
  exists qo qc qd,
    o = Some qo /\ c = Some qc /\ d = Some qd
    /\ ((0 < qd -> qo <= qc) /\ (qd < 0 -> qc <= qo))%Q.
Proof.
  destruct o as [qo|], c as [qc|], d as [qd|]; simpl; try discriminate;
    try (unfold sign; simpl; discriminate).
  unfold sign. simpl. unfold Exact.qltb.
  change (inject_Z 0) with 0%Q. change (inject_Z 1) with 1%Q.
  change (inject_Z (-1)) with (-1)%Q.
  intros H. exists qo, qc, qd. repeat split.
  - intros Hd.
    assert (E : Qle_bool qd 0 = false).
    { apply not_true_is_false. rewrite Qle_bool_iff. now apply Qlt_not_le. }
    rewrite E in H. simpl in H. apply Qle_bool_iff in H. lra.
  - intros Hd.
    assert (E1 : Qle_bool qd 0 = true) by (apply Qle_bool_iff; lra).
    assert (E2 : Qle_bool 0 qd = false).
    { apply not_true_is_false. rewrite Qle_bool_iff. now apply Qlt_not_le. }
    rewrite E1, E2 in H. simpl in H. apply Qle_bool_iff in H. lra.
Qed.


(* ================================================================== *)
(** ** The body ratio of a well-formed candle *)

(** Every row of a returned frame is the row of one candle of the
    request. *)
Lemma preprocess_rows
    {F : Type} {N : Number F} (to_datetime : string -> option Z)
    (data : list (CandleDataInput.t F)) (df : DataFrame F) (row : Row F) :
  preprocess_data_from_json to_datetime data = Ok df ->
  In row df ->
  exists c, In c data /\ row = candle_metrics (timestamp_key to_datetime c) c.
Proof.
  intros Hdf Hrow.
  assert (Hne : data <> []) by (intros ->; discriminate Hdf).
  destruct (timestamps_parse_or_not to_datetime data) as [Hall|Hbad].
  2:{ rewrite (preprocess_value_error to_datetime data) in Hdf by now right.
      discriminate. }
  rewrite (preprocess_ok to_datetime data Hne Hall) in Hdf.
  injection Hdf as <-.
  apply in_map_iff in Hrow as ([ts c] & <- & Hin).
  apply (Permutation_in _ (sort_index_perm _)) in Hin.
  apply in_map_iff in Hin as (c' & [= <- <-] & Hc').
  exists c'. now split.
Qed.

Lemma exact_body_ratio_bounds (ts : Z) (c : CandleDataInput.t Exact.num) :
  within_high_low c = true ->
  ($0 <=? body_ratio (candle_metrics ts c))%num = true
  /\ (body_ratio (candle_metrics ts c) <=? $100)%num = true.
Proof.
  destruct c as [stamp [o|] [h|] [l|] [cl|]]; unfold within_high_low; simpl;
    try discriminate;
    try (rewrite ?andb_false_r; discriminate).
  intros H.
  apply andb_prop in H as [H Hch]. apply andb_prop in H as [H Hlc].
  apply andb_prop in H as [Hlo Hoh].
  apply Qle_bool_iff in Hch, Hlc, Hlo, Hoh.
  change (inject_Z 0) with 0%Q. change (inject_Z 100) with 100%Q.
  destruct (Qeq_bool (h - l) 0) eqn:E; simpl.
  - split; reflexivity.
  - assert (Hrange : (0 < h - l)%Q).
    { apply Qeq_bool_neq in E. lra. }
    assert (Hbody : (0 <= Qabs (cl - o) <= h - l)%Q).
    { split; [apply Qabs_nonneg|]. apply Qabs_Qle_condition. lra. }
    set (b := Qabs (cl - o)) in *.
    assert (Hq : (b / (h - l) * (h - l) == b)%Q) by (field; lra).
    set (q := (b / (h - l))%Q) in *.
    assert (Hq0 : (0 <= q)%Q).
    { unfold q. apply Qle_shift_div_l; [assumption|]. lra. }
    assert (Hq1 : (q <= 1)%Q).
    { unfold q. apply Qle_shift_div_r; [assumption|]. lra. }
    split; apply Qle_bool_iff;
      match goal with
      | |- context [(?x / (h - l) * 100)%Q] => change x with b
      end;
      fold q; lra.
Qed.


(* ================================================================== *)
(** ** The further theorems at work on sample series *)

Lemma preprocess_sorted_permutation_witness :
  exists df,
    preprocess_data_from_json Sample.day_of_month Sample.request = Ok df
    /\ len df = len Sample.request
    /\ Permutation df
         (map (fun c => candle_metrics (timestamp_key Sample.day_of_month c) c)
              Sample.request)
    /\ StronglySorted (fun a b => index a <= index b) df.
Proof.
  eexists. split; [vm_compute; reflexivity|].
  apply (preprocess_sorted_permutation Sample.day_of_month Sample.request).
  vm_compute. reflexivity.
Defined.

Lemma analyze_data_output_contract_witness :
  (LIMIT_CATCH_ENTRY = LIMIT_CATCH_ENTRY
   \/ LIMIT_CATCH_ENTRY = IN_PRICE_ENTRY \/ LIMIT_CATCH_ENTRY = NO_ENTRY)
  /\ [RangeDetected 99%float 101%float 2%float; EntryZoneNoPriorImpulse] <> []
  /\ exists found rest,
       detect_range RANGE_CONFIG Sample.both_setups = Ok found
       /\ [RangeDetected 99%float 101%float 2%float; EntryZoneNoPriorImpulse]
          = step1_reason found ++ rest
       /\ rest <> [].
Proof.
  apply (analyze_data_output_contract RANGE_CONFIG IMPULSE_CONFIG TREND_CONFIG
           Sample.both_setups).
  vm_compute. reflexivity.
Defined.

Lemma analyze_data_raises_exactly_on_empty_witness :
  analyze_data RANGE_CONFIG IMPULSE_CONFIG TREND_CONFIG [] = Raise IndexError
  /\ exists label reason,
       analyze_data RANGE_CONFIG IMPULSE_CONFIG TREND_CONFIG Sample.thrust
       = Ok (label, reason).
Proof.
  assert (Hr : 1 <= min_candles RANGE_CONFIG) by (simpl; lia).
  assert (Hi : 1 <= min_candles_consecutive IMPULSE_CONFIG) by (simpl; lia).
  assert (Ht : 1 <= TREND_LOOKBACK TREND_CONFIG) by (simpl; lia).
  split.
  - now apply (proj1 (analyze_data_raises_exactly_on_empty
                        RANGE_CONFIG IMPULSE_CONFIG TREND_CONFIG [] Hr Hi Ht)).
  - apply (proj2 (analyze_data_raises_exactly_on_empty
                    RANGE_CONFIG IMPULSE_CONFIG TREND_CONFIG Sample.thrust Hr Hi Ht)).
    discriminate.
Defined.


Lemma check_recent_impulse_trailing_only_witness :
  check_recent_impulse IMPULSE_CONFIG (Scenario.older ++ Sample.thrust)
  = check_recent_impulse IMPULSE_CONFIG Sample.thrust.
Proof.
  apply (check_recent_impulse_trailing_only IMPULSE_CONFIG
           Scenario.older Sample.thrust).
  - simpl. lia.
  - vm_compute. discriminate.
Defined.

Lemma detect_trend_and_bos_trailing_only_witness :
  detect_trend_and_bos TREND_CONFIG (Scenario.older ++ Sample.range_with_breakout)
  = detect_trend_and_bos TREND_CONFIG Sample.range_with_breakout.
Proof.
  apply (detect_trend_and_bos_trailing_only TREND_CONFIG
           Scenario.older Sample.range_with_breakout).
  - simpl. lia.
  - vm_compute. discriminate.
Defined.

Lemma detect_range_ignores_older_candles_witness :
  detect_range RANGE_CONFIG (Scenario.older ++ Sample.range_with_breakout)
  = Ok (Some (shift_range (len Scenario.older)
                (range_of RANGE_CONFIG Sample.range_with_breakout 0))).
Proof.
  apply (detect_range_ignores_older_candles RANGE_CONFIG
           Scenario.older Sample.range_with_breakout).
  - simpl. lia.
  - vm_compute. reflexivity.
Defined.

Lemma detect_range_window_inside_series_witness :
  let r := range_of RANGE_CONFIG Sample.both_setups 2 in
  0 <= Range.start_index r <= Range.end_index r
  /\ Range.end_index r < len Sample.both_setups
  /\ Range.end_index r - Range.start_index r + 1 = min_candles RANGE_CONFIG
  /\ len (window_at RANGE_CONFIG Sample.both_setups (Range.start_index r))
     = min_candles RANGE_CONFIG
  /\ Range.high r
     = series_max (col high (window_at RANGE_CONFIG Sample.both_setups
                                       (Range.start_index r)))
  /\ Range.low r
     = series_min (col low (window_at RANGE_CONFIG Sample.both_setups
                                      (Range.start_index r)))
  /\ isna (Range.high r) = false
  /\ (Range.high r <=? Range.low r)%num = false.
Proof.
  intros r.
  apply (detect_range_window_inside_series RANGE_CONFIG Sample.both_setups r).
  - simpl. lia.
  - vm_compute. reflexivity.
Defined.

Lemma detect_range_extremes_bound_window_witness :
  let r := range_of RANGE_CONFIG Sample.both_setups 2 in
  let window := window_at RANGE_CONFIG Sample.both_setups (Range.start_index r) in
  (forall row, In row window -> In row Sample.both_setups)
  /\ (forall row, In row window -> isna (high row) = false ->
                  (high row <=? Range.high r)%num = true)
  /\ (forall row, In row window -> isna (low row) = false ->
                  (Range.low r <=? low row)%num = true)
  /\ (exists row, In row window /\ high row = Range.high r)
  /\ (isna (Range.low r) = false ->
      exists row, In row window /\ low row = Range.low r).
Proof.
  intros r.
  apply (detect_range_extremes_bound_window binary64_nan_laws
           RANGE_CONFIG Sample.both_setups r).
  vm_compute. reflexivity.
Defined.

Lemma break_of_structure_beats_every_prior_candle_witness :
  exists last_high,
    iloc (col high Sample.both_setups) (-1) = Ok last_high
    /\ forall row,
         In row (iloc_slice (Some (- TREND_LOOKBACK TREND_CONFIG - 1)) (Some (-1))
                            Sample.both_setups) ->
         isna (high row) = false ->
         (high row <? last_high)%num = true.
Proof.
  apply (break_of_structure_beats_every_prior_candle
           binary64_laws binary64_nan_laws TREND_CONFIG Sample.both_setups uptrend).
  vm_compute. reflexivity.
Defined.




Lemma entry_zone_only_for_numbers_witness :
  isna 100.9%float = false
  /\ isna 99%float = false
  /\ isna 101%float = false
  /\ isna 30%float = false
  /\ ($0 <? 101%float - 99%float)%num = true.
Proof.
  apply (proj1 (entry_zone_only_for_numbers binary64_nan_laws binary64_arith_laws)
           100.9%float 99%float 101%float 30%float).
  vm_compute. reflexivity.
Defined.




